(** * gemini_webapi.client: a shallow embedding and its properties

    The development follows [src/gemini_webapi/client.py]:
    - Python values as they come out of [orjson.loads] ([pyval]), with the
      indexing, truthiness and iteration rules the parser relies on;
    - the exception classes the handlers distinguish ([exn], [isinstance]);
    - the [running] decorator, [GeminiClient.init]/[close],
      [fetch_gems], [generate_content];
    - [ChatSession] with its lineage list and its setters.

    The network and the helpers of utils.py, constants.py and types.py are
    collaborators: the service is a script of answers ([World]), the pure
    helpers are the fields of [Externals].  The two background tasks (the
    cookie refresh loop and the timed close) run between calls and are not
    part of a call; of the close task only its being scheduled is kept. *)

From Stdlib Require Import ZArith String Ascii Bool List Lia.
From Stdlib Require Import PrimFloat.
From stdpp Require Import base list.

Import ListNotations.
Set Warnings "-register-all".
Local Open Scope Z_scope.
Local Open Scope string_scope.

(** ** Exceptions *)

Module Exn.

(** The classes that can be raised, or named in an [except] clause, by the
    code of client.py. *)
Inductive exn : Type :=
  (* builtins *)
  | PyException | AssertionError | LookupError | IndexError | KeyError
  | TypeError | ValueError | NameError | UnboundLocalError | RuntimeError
  (* httpx *)
  | ReadTimeout
  (* gemini_webapi.exceptions *)
  | AuthError | APIError | ImageGenerationError | GeminiError | TimeoutError
  | UsageLimitExceeded | ModelInvalid | TemporarilyBlocked.

Definition exn_eqb (a b : exn) : bool :=
  match a, b with
  | PyException, PyException | AssertionError, AssertionError
  | LookupError, LookupError | IndexError, IndexError | KeyError, KeyError
  | TypeError, TypeError | ValueError, ValueError | NameError, NameError
  | UnboundLocalError, UnboundLocalError | RuntimeError, RuntimeError
  | ReadTimeout, ReadTimeout | AuthError, AuthError | APIError, APIError
  | ImageGenerationError, ImageGenerationError | GeminiError, GeminiError
  | TimeoutError, TimeoutError | UsageLimitExceeded, UsageLimitExceeded
  | ModelInvalid, ModelInvalid | TemporarilyBlocked, TemporarilyBlocked => true
  | _, _ => false
  end.

(** Modelled from the spec: the exception classes are declared in
    exceptions.py, which is not among the sources.  The direct base class
    of each is the one the handlers of client.py rely on:
    [isinstance(e, ImageGenerationError)] is tested on an [APIError], and the
    three classified rejections pass through [except GeminiError: raise].
    The builtin classes have their Python bases. *)
Definition base_class (e : exn) : option exn :=
  match e with
  | PyException => None
  | IndexError | KeyError => Some LookupError
  | UnboundLocalError => Some NameError
  | ImageGenerationError => Some APIError
  | TimeoutError | UsageLimitExceeded | ModelInvalid | TemporarilyBlocked =>
      Some GeminiError
  | _ => Some PyException
  end.

Fixpoint subclass_upto (n : nat) (e cls : exn) : bool :=
  exn_eqb e cls ||
  match n with
  | O => false
  | S n' =>
      match base_class e with
      | Some b => subclass_upto n' b cls
      | None => false
      end
  end.

(** [isinstance(e, cls)], for an exception of class [e]; no chain of bases
    is longer than three. *)
Definition isinstance (e cls : exn) : bool := subclass_upto 3 e cls.

(** [isinstance(e, (c1, c2, ...))], as in [except (IndexError, TypeError)]. *)
Definition isinstance_any (e : exn) (clss : list exn) : bool :=
  existsb (isinstance e) clss.

End Exn.
Export Exn.

(** ** Results of computations that may raise *)

Inductive result (A : Type) : Type :=
  | Ret (a : A)
  | Raise (e : exn).
Arguments Ret {A} a.
Arguments Raise {A} e.

Definition bind {A B : Type} (r : result A) (k : A -> result B) : result B :=
  match r with
  | Ret a => k a
  | Raise e => Raise e
  end.

Notation "x <- c1 ;; c2" := (bind c1 (fun x => c2))
  (at level 100, c1 at next level, right associativity).

(** [try: body  except clss: handler] for a handler that ignores the
    exception object. *)
Definition try_except {A : Type} (body : result A) (clss : list exn)
    (handler : result A) : result A :=
  match body with
  | Ret a => Ret a
  | Raise e => if isinstance_any e clss then handler else Raise e
  end.

Fixpoint mapM {A B : Type} (f : A -> result B) (l : list A) : result (list B) :=
  match l with
  | [] => Ret []
  | a :: l' => b <- f a ;; bs <- mapM f l' ;; Ret (b :: bs)
  end.

(** ** Python values *)

(** What [orjson.loads] can produce.  A string is a sequence of characters,
    one [ascii] per character: the strings covered are those whose
    characters lie in U+0000..U+00FF, a character being the [ascii] of its
    code point.  An object keeps its items in document order. *)
Inductive pyval : Type :=
  | VNone
  | VBool (b : bool)
  | VInt (z : Z)
  | VFloat (f : float)
  | VStr (s : string)
  | VList (l : list pyval)
  | VDict (d : list (string * pyval)).

(** [bool(v)]. *)
Definition truthy (v : pyval) : bool :=
  match v with
  | VNone => false
  | VBool b => b
  | VInt z => negb (Z.eqb z 0)
  | VFloat f => negb (PrimFloat.eqb f PrimFloat.zero)
  | VStr s => negb (Nat.eqb (String.length s) 0)
  | VList l => negb (Nat.eqb (List.length l) 0)
  | VDict d => negb (Nat.eqb (List.length d) 0)
  end.

(** The position a Python index [i] denotes in a sequence of length [n]:
    negative indices count from the end. *)
Definition norm_index (n : nat) (i : Z) : option nat :=
  if Z.leb 0 i && Z.ltb i (Z.of_nat n) then Some (Z.to_nat i)
  else if Z.leb (- Z.of_nat n) i && Z.ltb i 0 then Some (Z.to_nat (Z.of_nat n + i))
  else None.

Definition chars (s : string) : list pyval :=
  map (fun c => VStr (String c EmptyString)) (list_ascii_of_string s).

(** [seq[i]] on a list. *)
Definition list_getitem {A : Type} (l : list A) (i : Z) : result A :=
  match norm_index (List.length l) i with
  | Some k => match l !! k with Some a => Ret a | None => Raise IndexError end
  | None => Raise IndexError
  end.

(** [lst[i] = v] on a list. *)
Definition list_setitem {A : Type} (l : list A) (i : Z) (v : A) : result (list A) :=
  match norm_index (List.length l) i with
  | Some k => Ret (<[k:=v]> l)
  | None => Raise IndexError
  end.

(** [v[i]] for an integer [i].  The keys of a decoded object are strings, so
    an integer subscript of a dict is a [KeyError]. *)
Definition getitem (v : pyval) (i : Z) : result pyval :=
  match v with
  | VList l => list_getitem l i
  | VStr s => list_getitem (chars s) i
  | VDict _ => Raise KeyError
  | VNone | VBool _ | VInt _ | VFloat _ => Raise TypeError
  end.

(** [v[i1][i2]...]. *)
Fixpoint getpath (v : pyval) (path : list Z) : result pyval :=
  match path with
  | [] => Ret v
  | i :: path' => x <- getitem v i ;; getpath x path'
  end.

(** The items [for x in v] goes through. *)
Definition iterate (v : pyval) : result (list pyval) :=
  match v with
  | VList l => Ret l
  | VStr s => Ret (chars s)
  | VDict d => Ret (map (fun kv => VStr (fst kv)) d)
  | VNone | VBool _ | VInt _ | VFloat _ => Raise TypeError
  end.

(** [len(v)]. *)
Definition py_len (v : pyval) : result Z :=
  match v with
  | VList l => Ret (Z.of_nat (List.length l))
  | VStr s => Ret (Z.of_nat (String.length s))
  | VDict d => Ret (Z.of_nat (List.length d))
  | VNone | VBool _ | VInt _ | VFloat _ => Raise TypeError
  end.

(** [a and b], with [b] evaluated only when [a] is truthy. *)
Definition py_and (a : pyval) (b : result pyval) : result pyval :=
  if truthy a then b else Ret a.

(** [a or b], for values already computed. *)
Definition py_or (a b : pyval) : pyval := if truthy a then a else b.

(** A value where the [re] functions want a string: anything else is a
    [TypeError]. *)
Definition as_str (v : pyval) : result string :=
  match v with
  | VStr s => Ret s
  | _ => Raise TypeError
  end.

(** ** Strings: the three patterns of the parser

    The two character classes the patterns and [rstrip] use are those of
    Python on the characters a [string] holds here, U+0000..U+00FF. *)

Module Str.

(** [s.split(sep)] for a one-character separator. *)
Fixpoint split_on (sep : ascii) (s : string) : list string :=
  match s with
  | EmptyString => [EmptyString]
  | String c s' =>
      if Ascii.eqb c sep then EmptyString :: split_on sep s'
      else match split_on sep s' with
           | [] => [String c EmptyString]
           | w :: ws => String c w :: ws
           end
  end.

Definition newline : ascii := ascii_of_nat 10.

(** What [\d] matches in a [str] pattern: the decimal digits (category
    Nd).  Up to U+00FF these are [0]..[9] only; the superscripts U+00B2,
    U+00B3 and U+00B9 are not decimal digits. *)
Definition is_digit (c : ascii) : bool :=
  let n := nat_of_ascii c in Nat.leb 48 n && Nat.leb n 57.

(** [Some rest] when [s] is [p ++ rest]. *)
Fixpoint strip_prefix (p s : string) : option string :=
  match p, s with
  | EmptyString, _ => Some s
  | String a p', String b s' => if Ascii.eqb a b then strip_prefix p' s' else None
  | String _ _, EmptyString => None
  end.

Fixpoint count_digits (s : string) : nat :=
  match s with
  | String c s' => if is_digit c then S (count_digits s') else O
  | EmptyString => O
  end.

(** The length of the match of [p\d+] at the head of [s], if there is one
    (the digits are taken greedily). *)
Definition match_marker (p s : string) : option nat :=
  match strip_prefix p s with
  | Some rest =>
      match count_digits rest with
      | O => None
      | S d => Some (String.length p + S d)%nat
      end
  | None => None
  end.

Definition card_content : string := "http://googleusercontent.com/card_content/".
Definition image_generation_content : string :=
  "http://googleusercontent.com/image_generation_content/".

(** [re.match(r"^http://googleusercontent\.com/card_content/\d+", text)]
    as a truth value. *)
Definition is_card_content (text : string) : bool :=
  match match_marker card_content text with Some _ => true | None => false end.

(** [re.sub(p\d+, "", s)]: [skip] characters of a match are still to be
    dropped. *)
Fixpoint remove_markers (p : string) (skip : nat) (s : string) : string :=
  match s with
  | EmptyString => EmptyString
  | String c s' =>
      match skip with
      | S k => remove_markers p k s'
      | O =>
          match match_marker p s with
          | Some n => remove_markers p (Nat.pred n) s'
          | None => String c (remove_markers p O s')
          end
      end
  end.

(** What [str.rstrip()] strips: the characters [str.isspace] accepts.  Up
    to U+00FF these are U+0009..U+000D, U+001C..U+001F, the space, U+0085
    and U+00A0. *)
Definition is_space (c : ascii) : bool :=
  let n := nat_of_ascii c in
  Nat.eqb n 32 || (Nat.leb 9 n && Nat.leb n 13) || (Nat.leb 28 n && Nat.leb n 31)
  || Nat.eqb n 133 || Nat.eqb n 160.

(** [s.rstrip()]. *)
Fixpoint rstrip (s : string) : string :=
  match s with
  | EmptyString => EmptyString
  | String c s' =>
      match rstrip s' with
      | EmptyString => if is_space c then EmptyString else String c EmptyString
      | t => String c t
      end
  end.

(** [re.sub(r"http://googleusercontent\.com/image_generation_content/\d+",
    "", s).rstrip()]. *)
Definition strip_image_markers (s : string) : string :=
  rstrip (remove_markers image_generation_content O s).

End Str.

(** ** Data model *)

(** Modelled from the spec: the classes [WebImage], [GeneratedImage],
    [Candidate], [ModelOutput] and [Gem] are declared in types.py, which is
    not among the sources.  Fields are those client.py passes to the
    constructors; their values are kept as decoded. *)
Inductive Image : Type :=
  | WebImage (url title alt : pyval)
  | GeneratedImage (url : pyval) (title : string) (alt : pyval).

Record Candidate : Type := mkCandidate {
  cand_rcid : pyval;
  cand_text : pyval;
  cand_thoughts : pyval;
  cand_web_images : list Image;
  cand_generated_images : list Image
}.

Record ModelOutput : Type := mkModelOutput {
  out_metadata : list pyval;
  out_candidates : list Candidate;
  out_chosen : Z
}.

Record Gem : Type := mkGem {
  gem_id : pyval;
  gem_name : pyval;
  gem_description : pyval;
  gem_prompt : pyval;
  gem_predefined : bool
}.

(** Modelled from the spec: [GemJar] (types.py) maps gem ids to gems; here
    the items in the order they were given. *)
Definition GemJar : Type := list (pyval * Gem).

(** Modelled from the spec: [ModelOutput.rcid] (types.py) is the reply
    candidate id of the chosen candidate, [candidates[chosen].rcid]. *)
Definition ModelOutput_rcid (o : ModelOutput) : result pyval :=
  c <- list_getitem (out_candidates o) (out_chosen o) ;; Ret (cand_rcid c).

(** Modelled from the spec: [ErrorCode] is declared in constants.py, which
    is not among the sources; it is the closed enum of the three members
    the [match] statement of [generate_content] names. *)
Inductive ErrorCode : Type :=
  | USAGE_LIMIT_EXCEEDED
  | MODEL_HEADER_INVALID
  | IP_TEMPORARILY_BLOCKED.

(** How a model is passed: a member of the [Model] enum, or a name. *)
Inductive model_arg : Type :=
  | ModelMember (name : string)
  | ModelName (name : string).

(** How a gem is passed: a [Gem], or an id. *)
Inductive gem_arg : Type :=
  | GemObject (g : Gem)
  | GemId (id : pyval).

(** ** External collaborators

    Everything client.py calls and does not define: the JSON codec
    ([orjson]), the enum lookups of constants.py, the upload helpers of
    utils.py, the validating constructors of types.py and the formatting
    of a value inside an f-string.  They are pure here; each may raise. *)
Record Externals : Type := mkExternals {
  loads : string -> result pyval;
  dumps : pyval -> string;
  ErrorCode_of_value : pyval -> option ErrorCode;
  Model_from_name : string -> result string;
  upload_file : string -> result pyval;
  parse_file_name : string -> result pyval;
  format_value : pyval -> string;
  new_WebImage : pyval -> pyval -> pyval -> result Image;
  new_GeneratedImage : pyval -> string -> pyval -> result Image;
  new_Candidate : pyval -> pyval -> pyval -> list Image -> list Image ->
                  result Candidate;
  new_ModelOutput : pyval -> list Candidate -> result ModelOutput;
  new_Gem : pyval -> pyval -> pyval -> pyval -> bool -> result Gem
}.

(** ** The client *)

(** The slots of [GeminiClient] that decide control flow.  [client] and
    [close_task] record whether the slot holds an object; the numeric
    settings ([timeout], [close_delay], [refresh_interval]) and [proxy],
    [kwargs] are passed around unchanged and are left out. *)
Record GeminiClient : Type := mkGeminiClient {
  cookies : list (string * string);
  running : bool;
  client : bool;
  access_token : option string;
  auto_close : bool;
  close_task : bool;
  auto_refresh : bool;
  _gems : option GemJar
}.

Definition set_running (b : bool) (c : GeminiClient) : GeminiClient :=
  mkGeminiClient (cookies c) b (client c) (access_token c) (auto_close c)
    (close_task c) (auto_refresh c) (_gems c).

Definition set_close_task (b : bool) (c : GeminiClient) : GeminiClient :=
  mkGeminiClient (cookies c) (running c) (client c) (access_token c)
    (auto_close c) b (auto_refresh c) (_gems c).

Definition set_gems (g : GemJar) (c : GeminiClient) : GeminiClient :=
  mkGeminiClient (cookies c) (running c) (client c) (access_token c)
    (auto_close c) (close_task c) (auto_refresh c) (Some g).

(** [GeminiClient.__init__] with [secure_1psid] given. *)
Definition GeminiClient_new (secure_1psid : string) (secure_1psidts : option string)
    : GeminiClient :=
  mkGeminiClient
    (("__Secure-1PSID", secure_1psid) ::
     match secure_1psidts with
     | Some t => if Nat.eqb (String.length t) 0 then []
                 else [("__Secure-1PSIDTS", t)]
     | None => []
     end)
    false false None false false true None.

(** [GeminiClient.close()] with no delay. *)
Definition close (c : GeminiClient) : GeminiClient :=
  set_close_task false (set_running false c).

(** [GeminiClient.reset_close_task()]. *)
Definition reset_close_task (c : GeminiClient) : GeminiClient :=
  set_close_task true c.

(** *** The network *)

Record Request : Type := mkRequest {
  req_endpoint : string;
  req_at : option string;
  req_f_req : string
}.

Record Response : Type := mkResponse {
  status_code : Z;
  text : string
}.

(** The service, as far as the client sees it: what the [n]-th handshake
    ([get_access_token] and the construction of the HTTP client: an access
    token and the valid cookies, or an exception) and the [n]-th POST
    answer, and how many of each were made. *)
Record World : Type := mkWorld {
  handshake : nat -> result (string * list (string * string));
  post : nat -> Request -> result Response;
  handshakes_done : nat;
  posts_done : nat
}.

Definition do_handshake (w : World)
    : result (string * list (string * string)) * World :=
  (handshake w (handshakes_done w),
   mkWorld (handshake w) (post w) (S (handshakes_done w)) (posts_done w)).

Definition do_post (w : World) (rq : Request) : result Response * World :=
  (post w (posts_done w) rq,
   mkWorld (handshake w) (post w) (handshakes_done w) (S (posts_done w))).

Fixpoint assoc_get (k : string) (m : list (string * string)) : option string :=
  match m with
  | [] => None
  | (k', v) :: m' => if String.eqb k k' then Some v else assoc_get k m'
  end.

(** [GeminiClient.init(...)], called with the client's own settings as the
    decorator does.  The body runs under [except Exception: await
    self.close(); raise].  The registry of refresh tasks is not part of the
    state; looking the cookie up in it is what can still fail. *)
Definition init (c : GeminiClient) (w : World)
    : result unit * GeminiClient * World :=
  let '(h, w') := do_handshake w in
  match h with
  | Raise e => (Raise e, close c, w')
  | Ret (token, valid_cookies) =>
      let c1 :=
        mkGeminiClient valid_cookies true true (Some token) (auto_close c)
          (close_task c) (auto_refresh c) (_gems c) in
      let c2 := if auto_close c1 then reset_close_task c1 else c1 in
      match assoc_get "__Secure-1PSID" (cookies c2) with
      | None => (Raise KeyError, close c2, w')
      | Some _ => (Ret tt, c2, w')
      end
  end.

(** ** The [running] decorator *)

(** What an observer of a wrapped call sees happen, in order. *)
Inductive event : Type :=
  | EInit    (* client.init(...) was awaited *)
  | ECall    (* the wrapped function was awaited *)
  | ESleep.  (* asyncio.sleep(1) was awaited *)

Definition event_eqb (a b : event) : bool :=
  match a, b with
  | EInit, EInit | ECall, ECall | ESleep, ESleep => true
  | _, _ => false
  end.

Definition count_event (e : event) (tr : list event) : nat :=
  List.length (List.filter (event_eqb e) tr).

Section Running.
(** [X] is the state outside the client that the call can change (the
    network, a chat session); [A] is what the wrapped function returns. *)
Context {X A : Type}.
Variable client_init : GeminiClient -> X -> result unit * GeminiClient * X.
Variable func : GeminiClient -> X -> result A * GeminiClient * X.

Record run : Type := mkRun {
  outcome : result A;
  final_client : GeminiClient;
  final_rest : X;
  trace : list event
}.

(** The body of the [try] statement of [wrapper]. *)
Definition attempt (c : GeminiClient) (x : X) : run :=
  if negb (running c) then
    let '(r, c1, x1) := client_init c x in
    match r with
    | Raise e => mkRun (Raise e) c1 x1 [EInit]
    | Ret _ =>
        if running c1 then
          let '(r2, c2, x2) := func c1 x1 in mkRun r2 c2 x2 [EInit; ECall]
        else
          (* Should not reach here *)
          mkRun (Raise APIError) c1 x1 [EInit]
    end
  else
    let '(r, c1, x1) := func c x in mkRun r c1 x1 [ECall].

(** The budget left after an [APIError] [e]: [retry = min(1, retry)] when
    it is an [ImageGenerationError]. *)
Definition budget_after (e : exn) (retry : Z) : Z :=
  if isinstance e ImageGenerationError then Z.min 1 retry else retry.

(** [wrapper(client, *args, retry=retry, **kwargs)].  The recursion of the
    source is on [retry - 1] under [retry > 0]; [fuel] bounds its depth. *)
Fixpoint wrapper_fuel (fuel : nat) (retry : Z) (c : GeminiClient) (x : X)
    : option run :=
  match fuel with
  | O => None
  | S fuel' =>
      let a := attempt c x in
      match outcome a with
      | Ret _ => Some a
      | Raise e =>
          if isinstance e APIError then
            let retry1 := budget_after e retry in
            if Z.ltb 0 retry1 then
              match wrapper_fuel fuel' (retry1 - 1) (final_client a) (final_rest a) with
              | Some r =>
                  Some (mkRun (outcome r) (final_client r) (final_rest r)
                          (trace a ++ ESleep :: trace r))
              | None => None
              end
            else Some a
          else Some a
      end
  end.

(** The wrapped call: one more unit of fuel than retries allowed. *)
Definition wrapper (retry : Z) (c : GeminiClient) (x : X) : option run :=
  wrapper_fuel (S (Z.to_nat retry)) retry c x.

End Running.

Arguments mkRun {X A} _ _ _ _.
Arguments outcome {X A} _.
Arguments final_client {X A} _.
Arguments final_rest {X A} _.
Arguments trace {X A} _.

(** ** [ChatSession] *)

(** [metadata] is the private list [__metadata]; the reference to the
    client is not part of the state. *)
Record ChatSession : Type := mkChatSession {
  metadata : list pyval;
  last_output : option ModelOutput;
  model : model_arg;
  gem : option gem_arg
}.

Definition with_metadata (m : list pyval) (s : ChatSession) : ChatSession :=
  mkChatSession m (last_output s) (model s) (gem s).

Definition with_last_output (o : ModelOutput) (s : ChatSession) : ChatSession :=
  mkChatSession (metadata s) (Some o) (model s) (gem s).

Module Session.

(** The [metadata] setter: [self.__metadata[: len(value)] = value]. *)
Definition set_metadata (s : ChatSession) (value : list pyval) : result ChatSession :=
  if Z.ltb 3 (Z.of_nat (List.length value)) then Raise ValueError
  else Ret (with_metadata (value ++ drop (List.length value) (metadata s)) s).

(** The [cid], [rid] and [rcid] setters: [self.__metadata[i] = value]. *)
Definition set_slot (i : Z) (s : ChatSession) (value : pyval) : result ChatSession :=
  m <- list_setitem (metadata s) i value ;; Ret (with_metadata m s).

Definition set_cid := set_slot 0.
Definition set_rid := set_slot 1.
Definition set_rcid := set_slot 2.

(** The getters. *)
Definition cid (s : ChatSession) : result pyval := list_getitem (metadata s) 0.
Definition rid (s : ChatSession) : result pyval := list_getitem (metadata s) 1.
Definition rcid (s : ChatSession) : result pyval := list_getitem (metadata s) 2.

(** [ChatSession.__init__]. *)
Definition new (metadata0 : option (list pyval)) (cid0 rid0 rcid0 : pyval)
    (model0 : model_arg) (gem0 : option gem_arg) : result ChatSession :=
  let s0 := mkChatSession [VNone; VNone; VNone] None model0 gem0 in
  s1 <- match metadata0 with
        | Some m => if truthy (VList m) then set_metadata s0 m else Ret s0
        | None => Ret s0
        end ;;
  s2 <- (if truthy cid0 then set_cid s1 cid0 else Ret s1) ;;
  s3 <- (if truthy rid0 then set_rid s2 rid0 else Ret s2) ;;
  if truthy rcid0 then set_rcid s3 rcid0 else Ret s3.

(** [chat.last_output = value] for a [ModelOutput]: the assignment, then
    the hook of [__setattr__].  The session is returned as the statement
    leaves it, also when the hook raises. *)
Definition set_last_output (s : ChatSession) (value : ModelOutput)
    : result unit * ChatSession :=
  let s1 := with_last_output value s in
  match set_metadata s1 (out_metadata value) with
  | Raise e => (Raise e, s1)
  | Ret s2 =>
      match ModelOutput_rcid value with
      | Raise e => (Raise e, s2)
      | Ret r =>
          match set_rcid s2 r with
          | Raise e => (Raise e, s2)
          | Ret s3 => (Ret tt, s3)
          end
      end
  end.

(** [ChatSession.choose_candidate(index)].  [last_output.chosen = index]
    changes the output object the session holds; that object is what is
    returned. *)
Definition choose_candidate (s : ChatSession) (index : Z)
    : result ModelOutput * ChatSession :=
  match last_output s with
  | None => (Raise ValueError, s)
  | Some o =>
      if Z.leb (Z.of_nat (List.length (out_candidates o))) index
      then (Raise ValueError, s)
      else
        let o' := mkModelOutput (out_metadata o) (out_candidates o) index in
        let s1 := with_last_output o' s in
        match ModelOutput_rcid o' with
        | Raise e => (Raise e, s1)
        | Ret r =>
            match set_rcid s1 r with
            | Raise e => (Raise e, s1)
            | Ret s2 => (Ret o', s2)
            end
        end
  end.

End Session.

(** ** Requests and responses *)

Section Core.
Variable ext : Externals.

(** [json.loads(v)]: [orjson] refuses anything that is not text with a
    [JSONDecodeError], a [ValueError]. *)
Definition json_loads (v : pyval) : result pyval :=
  match v with
  | VStr s => loads ext s
  | _ => Raise ValueError
  end.

(** [v == s] for a string literal [s]. *)
Definition is_str (v : pyval) (s : string) : bool :=
  match v with
  | VStr t => String.eqb t s
  | _ => false
  end.

(** [json.loads(response.text.split("\n")[2])]. *)
Definition third_line (t : string) : result pyval :=
  line <- list_getitem (Str.split_on Str.newline t) 2 ;; loads ext line.

(** *** The request of [generate_content] *)

(** [files and [prompt, 0, None, [[[upload], name] ...]] or [prompt]]. *)
Definition content_envelope (prompt : string) (files : option (list string))
    : result pyval :=
  match files with
  | Some ((_ :: _) as l) =>
      atts <- mapM (fun file =>
                      u <- upload_file ext file ;;
                      n <- parse_file_name ext file ;;
                      Ret (VList [VList [u]; n])) l ;;
      Ret (VList [VStr prompt; VInt 0; VNone; VList atts])
  | _ => Ret (VList [VStr prompt])
  end.

(** [gem] after [if isinstance(gem, Gem): gem = gem.id]. *)
Definition gem_value (g : option gem_arg) : pyval :=
  match g with
  | None => VNone
  | Some (GemObject g) => gem_id g
  | Some (GemId id) => id
  end.

(** [gem and [None] * 16 + [gem] or []]. *)
Definition gem_suffix (g : pyval) : list pyval :=
  match py_or (if truthy g then VList (replicate 16 VNone ++ [g]) else g) (VList []) with
  | VList l => l
  | _ => []
  end.

(** [chat and chat.metadata]: a session object is always truthy. *)
Definition lineage_slot (chat : option ChatSession) : pyval :=
  match chat with
  | None => VNone
  | Some s => VList (metadata s)
  end.

(** The inner list handed to [json.dumps]: the turn envelope. *)
Definition turn_envelope (prompt : string) (files : option (list string))
    (g : option gem_arg) (chat : option ChatSession) : result (list pyval) :=
  content <- content_envelope prompt files ;;
  Ret ([content; VNone; lineage_slot chat] ++ gem_suffix (gem_value g))%list.

Inductive Endpoint : Type := BATCH_EXEC | GENERATE.

Definition endpoint_name (e : Endpoint) : string :=
  match e with BATCH_EXEC => "BATCH_EXEC" | GENERATE => "GENERATE" end.

Definition generate_request (c : GeminiClient) (envelope : list pyval) : Request :=
  mkRequest (endpoint_name GENERATE) (access_token c)
    (dumps ext (VList [VNone; VStr (dumps ext (VList envelope))])).

(** [except ReadTimeout: raise TimeoutError(...)]. *)
Definition on_read_timeout (e : exn) : exn :=
  if isinstance e ReadTimeout then TimeoutError else e.

(** *** Locating the body *)

(** One round of the search loop: [Some main_part] on [break], [None] on
    [continue] or when the test fails. *)
Definition try_part (part : pyval) : result (option pyval) :=
  try_except
    (x <- getitem part 2 ;;
     main_part <- json_loads x ;;
     y <- getitem main_part 4 ;;
     Ret (if truthy y then Some main_part else None))
    [IndexError; TypeError; ValueError]
    (Ret None).

Fixpoint find_body (parts : list pyval) (part_index : nat)
    : result (option (nat * pyval)) :=
  match parts with
  | [] => Ret None
  | part :: rest =>
      r <- try_part part ;;
      match r with
      | Some main_part => Ret (Some (part_index, main_part))
      | None => find_body rest (S part_index)
      end
  end.

(** The first [try] block after a 200: what [response_json] is bound to
    when the block ends, if it was bound, and either [(body_index, body)]
    or the exception that ended the block. *)
Definition locate_body (t : string) : option pyval * result (nat * pyval) :=
  match third_line t with
  | Raise e => (None, Raise e)
  | Ret response_json =>
      (Some response_json,
       parts <- iterate response_json ;;
       found <- find_body parts 0 ;;
       match found with
       | Some (body_index, body) =>
           if truthy body then Ret (body_index, body) else Raise PyException
       | None => Raise PyException
       end)
  end.

(** The position of the error code in the outer array. *)
Definition error_code_path : list Z := [0; 5; 2; 0; 1; 0].

(** The handler of that block, after [await self.close()]: the exception
    it ends with. *)
Definition classify (response_json : option pyval) : exn :=
  let inner : result unit :=
    rj <- match response_json with
          | Some v => Ret v
          | None => Raise UnboundLocalError
          end ;;
    code <- getpath rj error_code_path ;;
    match ErrorCode_of_value ext code with
    | Some USAGE_LIMIT_EXCEEDED => Raise UsageLimitExceeded
    | Some MODEL_HEADER_INVALID => Raise ModelInvalid
    | Some IP_TEMPORARILY_BLOCKED => Raise TemporarilyBlocked
    | None => Raise ValueError
    end in
  match inner with
  | Raise e => if isinstance e GeminiError then e else APIError
  | Ret _ => APIError
  end.

(** *** Candidates *)

Fixpoint mapM_enum {B C : Type} (f : nat -> B -> result C) (i : nat) (l : list B)
    : result (list C) :=
  match l with
  | [] => Ret []
  | b :: l' => c <- f i b ;; cs <- mapM_enum f (S i) l' ;; Ret (c :: cs)
  end.

(** [text], up to the substitution of the card-content placeholder. *)
Definition candidate_text (candidate : pyval) : result pyval :=
  t <- getpath candidate [1; 0] ;;
  s <- as_str t ;;
  if Str.is_card_content s then
    c22 <- getitem candidate 22 ;;
    alt <- py_and c22 (getitem c22 0) ;;
    Ret (py_or alt t)
  else Ret t.

Definition candidate_thoughts (candidate : pyval) : result pyval :=
  try_except (getpath candidate [37; 0; 0]) [TypeError; IndexError] (Ret VNone).

Definition web_image_of (web_image : pyval) : result Image :=
  url <- getpath web_image [0; 0; 0] ;;
  title <- getpath web_image [7; 0] ;;
  alt <- getpath web_image [0; 4] ;;
  new_WebImage ext url title alt.

Definition candidate_web_images (candidate : pyval) : result (list Image) :=
  c12 <- getitem candidate 12 ;;
  if truthy c12 then
    c121 <- getitem c12 1 ;;
    if truthy c121 then items <- iterate c121 ;; mapM web_image_of items
    else Ret []
  else Ret [].

(** [candidate[12] and candidate[12][7] and candidate[12][7][0]] as the
    condition of the [if]: the generated-image marker. *)
Definition has_generated_images (candidate : pyval) : result bool :=
  c12 <- getitem candidate 12 ;;
  m <- py_and c12 (c127 <- getitem c12 7 ;; py_and c127 (getitem c127 0)) ;;
  Ret (truthy m).

(** One round of the scan for the part that carries the images. *)
Definition try_img_part (candidate_index : nat) (part : pyval)
    : result (option pyval) :=
  try_except
    (x <- getitem part 2 ;;
     img_part <- json_loads x ;;
     m <- getpath img_part [4; Z.of_nat candidate_index; 12; 7; 0] ;;
     Ret (if truthy m then Some img_part else None))
    [IndexError; TypeError; ValueError]
    (Ret None).

(** The scan: parts before [body_index] are skipped. *)
Fixpoint find_img_body (body_index candidate_index : nat) (parts : list pyval)
    (img_part_index : nat) : result (option pyval) :=
  match parts with
  | [] => Ret None
  | part :: rest =>
      if Nat.ltb img_part_index body_index
      then find_img_body body_index candidate_index rest (S img_part_index)
      else
        r <- try_img_part candidate_index part ;;
        match r with
        | Some img_part => Ret (Some img_part)
        | None => find_img_body body_index candidate_index rest (S img_part_index)
        end
  end.

Definition generated_image_of (image_index : nat) (generated_image : pyval)
    : result Image :=
  url <- getpath generated_image [0; 3; 3] ;;
  n <- getpath generated_image [3; 6] ;;
  alts <- getpath generated_image [3; 5] ;;
  len <- py_len alts ;;
  a <- (if Z.ltb (Z.of_nat image_index) len
        then getitem alts (Z.of_nat image_index) else Ret (VBool false)) ;;
  alt <- (if truthy a then Ret a else getitem alts 0) ;;
  new_GeneratedImage ext url ("[Generated Image " ++ format_value ext n ++ "]") alt.

(** The body of [if candidate[12] and ...]: the new text and the images. *)
Definition generated_images_of (response_json : pyval)
    (body_index candidate_index : nat) : result (pyval * list Image) :=
  parts <- iterate response_json ;;
  found <- find_img_body body_index candidate_index parts 0 ;;
  match found with
  | None => Raise ImageGenerationError
  | Some img_body =>
      if negb (truthy img_body) then Raise ImageGenerationError
      else
        img_candidate <- getpath img_body [4; Z.of_nat candidate_index] ;;
        t <- getpath img_candidate [1; 0] ;;
        s <- as_str t ;;
        marker <- getpath img_candidate [12; 7; 0] ;;
        items <- iterate marker ;;
        images <- mapM_enum generated_image_of 0 items ;;
        Ret (VStr (Str.strip_image_markers s), images)
  end.

(** One round of the loop over [body[4]]. *)
Definition parse_candidate (response_json : pyval) (body_index : nat)
    (candidate_index : nat) (candidate : pyval) : result Candidate :=
  text0 <- candidate_text candidate ;;
  thoughts <- candidate_thoughts candidate ;;
  web_images <- candidate_web_images candidate ;;
  marker <- has_generated_images candidate ;;
  gi <- (if marker then generated_images_of response_json body_index candidate_index
         else Ret (text0, [])) ;;
  rcid0 <- getitem candidate 0 ;;
  new_Candidate ext rcid0 (fst gi) thoughts web_images (snd gi).

(** The second [try] block: the candidates and the output, with
    [except (TypeError, IndexError): raise APIError(...)]. *)
Definition build_output (response_json : pyval) (body_index : nat) (body : pyval)
    : result ModelOutput :=
  match
    (b4 <- getitem body 4 ;;
     items <- iterate b4 ;;
     candidates <- mapM_enum (parse_candidate response_json body_index) 0 items ;;
     match candidates with
     | [] => Raise GeminiError
     | _ :: _ => b1 <- getitem body 1 ;; new_ModelOutput ext b1 candidates
     end)
  with
  | Ret o => Ret o
  | Raise e => if isinstance_any e [TypeError; IndexError] then Raise APIError
               else Raise e
  end.

(** *** [generate_content], without the decorator *)

(** Everything after [if response.status_code != 200: ... else:]. *)
Definition parse_response (c : GeminiClient) (chat : option ChatSession)
    (t : string) : result ModelOutput * GeminiClient * option ChatSession :=
  match locate_body t with
  | (response_json, Raise _) => (Raise (classify response_json), close c, chat)
  | (None, Ret _) => (Raise (classify None), close c, chat)
  | (Some response_json, Ret (body_index, body)) =>
      match build_output response_json body_index body with
      | Raise e => (Raise e, c, chat)
      | Ret output =>
          match chat with
          | None => (Ret output, c, None)
          | Some s =>
              let '(r, s') := Session.set_last_output s output in
              (_ <- r ;; Ret output, c, Some s')
          end
      end
  end.

Definition resolve_model (m : model_arg) : result string :=
  match m with
  | ModelMember name => Ret name
  | ModelName name => Model_from_name ext name
  end.

(** The state a call can change besides the client: the network and the
    session passed as [chat]. *)
Definition Rest : Type := World * option ChatSession.

Definition generate_content (prompt : string) (files : option (list string))
    (m : model_arg) (g : option gem_arg) (c : GeminiClient) (st : Rest)
    : result ModelOutput * GeminiClient * Rest :=
  let '(w, chat) := st in
  if Nat.eqb (String.length prompt) 0 then (Raise AssertionError, c, st)
  else
    match resolve_model m with
    | Raise e => (Raise e, c, st)
    | Ret _ =>
        let c1 := if auto_close c then reset_close_task c else c in
        match turn_envelope prompt files g chat with
        | Raise e => (Raise (on_read_timeout e), c1, st)
        | Ret envelope =>
            let '(r, w1) := do_post w (generate_request c1 envelope) in
            match r with
            | Raise e => (Raise (on_read_timeout e), c1, (w1, chat))
            | Ret response =>
                if negb (Z.eqb (status_code response) 200)
                then (Raise APIError, close c1, (w1, chat))
                else
                  let '(out, c2, chat') := parse_response c1 chat (text response) in
                  (out, c2, (w1, chat'))
            end
        end
    end.

(** *** [fetch_gems], without the decorator *)

Definition dq : string := String (ascii_of_nat 34) EmptyString.

Definition fetch_gems_request (c : GeminiClient) : Request :=
  mkRequest (endpoint_name BATCH_EXEC) (access_token c)
    (dumps ext
       (VList [VList
          [VList [VStr "CNgdBe"; VStr ("[2,[" ++ dq ++ "en" ++ dq ++ "],0]");
                  VNone; VStr "custom"];
           VList [VStr "CNgdBe"; VStr ("[3,[" ++ dq ++ "en" ++ dq ++ "],0]");
                  VNone; VStr "system"]]])).

(** One round of the loop over the parts: the pair
    [(predefined_gems, custom_gems)] after it. *)
Definition gems_step (acc : pyval * pyval) (part : pyval) : result (pyval * pyval) :=
  tag <- getitem part (-1) ;;
  if is_str tag "system" then
    x <- getitem part 2 ;; j <- json_loads x ;; gs <- getitem j 2 ;;
    Ret (gs, snd acc)
  else if is_str tag "custom" then
    x <- getitem part 2 ;; container <- json_loads x ;;
    if truthy container then gs <- getitem container 2 ;; Ret (fst acc, gs)
    else Ret acc
  else Ret acc.

Fixpoint gems_loop (acc : pyval * pyval) (parts : list pyval)
    : result (pyval * pyval) :=
  match parts with
  | [] => Ret acc
  | part :: rest => acc' <- gems_step acc part ;; gems_loop acc' rest
  end.

(** The [try] block of [fetch_gems]. *)
Definition locate_gems (t : string) : result (pyval * pyval) :=
  response_json <- third_line t ;;
  parts <- iterate response_json ;;
  acc <- gems_loop (VList [], VList []) parts ;;
  if negb (truthy (fst acc)) && negb (truthy (snd acc)) then Raise PyException
  else Ret acc.

Definition gem_of (predefined : bool) (g : pyval) : result (pyval * Gem) :=
  id <- getitem g 0 ;;
  id' <- getitem g 0 ;;
  name <- getpath g [1; 0] ;;
  description <- getpath g [1; 1] ;;
  g2 <- getitem g 2 ;;
  p <- py_and g2 (getitem g2 0) ;;
  x <- new_Gem ext id' name description (py_or p VNone) predefined ;;
  Ret (id, x).

Definition fetch_gems (c : GeminiClient) (w : World)
    : result GemJar * GeminiClient * World :=
  let '(r, w1) := do_post w (fetch_gems_request c) in
  match r with
  | Raise e => (Raise (on_read_timeout e), c, w1)
  | Ret response =>
      if negb (Z.eqb (status_code response) 200)
      then (Raise APIError, c, w1)
      else
        match locate_gems (text response) with
        | Raise _ => (Raise APIError, close c, w1)
        | Ret (predefined_gems, custom_gems) =>
            match
              (ps <- iterate predefined_gems ;;
               cs <- iterate custom_gems ;;
               pj <- mapM (gem_of true) ps ;;
               cj <- mapM (gem_of false) cs ;;
               Ret (pj ++ cj)%list)
            with
            | Raise e => (Raise e, c, w1)
            | Ret jar => (Ret jar, set_gems jar c, w1)
            end
        end
  end.

End Core.

(** *** The decorated methods *)

Definition lift_init (c : GeminiClient) (st : Rest)
    : result unit * GeminiClient * Rest :=
  let '(r, c', w') := init c (fst st) in (r, c', (w', snd st)).

(** [GeminiClient.fetch_gems], as callers see it ([@running(retry=2)]). *)
Definition GeminiClient_fetch_gems (ext : Externals) (retry : Z)
    (c : GeminiClient) (w : World) : option (run (X:=World) (A:=GemJar)) :=
  wrapper init (fetch_gems ext) retry c w.

(** [GeminiClient.generate_content], as callers see it. *)
Definition GeminiClient_generate_content (ext : Externals) (prompt : string)
    (files : option (list string)) (m : model_arg) (g : option gem_arg)
    (retry : Z) (c : GeminiClient) (st : Rest)
    : option (run (X:=Rest) (A:=ModelOutput)) :=
  wrapper lift_init (generate_content ext prompt files m g) retry c st.

(** [ChatSession.send_message]. *)
Definition send_message (ext : Externals) (s : ChatSession) (prompt : string)
    (files : option (list string)) (retry : Z) (c : GeminiClient) (w : World)
    : option (run (X:=Rest) (A:=ModelOutput)) :=
  GeminiClient_generate_content ext prompt files (model s) (gem s) retry c (w, Some s).

Definition default_retry : Z := 2.

(** ** Concrete collaborators

    A decoder given by a table, enum values, constructors that accept
    everything, and scripted services: enough to run the client. *)

Module Sample.

Fixpoint table_get (k : string) (t : list (string * pyval)) : option pyval :=
  match t with
  | [] => None
  | (k', v) :: t' => if String.eqb k k' then Some v else table_get k t'
  end.

Definition loads_of (t : list (string * pyval)) (s : string) : result pyval :=
  match table_get s t with
  | Some v => Ret v
  | None => Raise ValueError
  end.

(** The values of the three error codes. *)
Definition error_code (v : pyval) : option ErrorCode :=
  match v with
  | VInt 1037 => Some USAGE_LIMIT_EXCEEDED
  | VInt 1052 => Some MODEL_HEADER_INVALID
  | VInt 1060 => Some IP_TEMPORARILY_BLOCKED
  | _ => None
  end.

Definition ext_of (t : list (string * pyval)) : Externals :=
  mkExternals (loads_of t) (fun _ => "") error_code (fun n => Ret n)
    (fun f => Ret (VStr f)) (fun f => Ret (VStr f))
    (fun v => match v with VStr s => s | _ => "" end)
    (fun u t a => Ret (WebImage u t a))
    (fun u t a => Ret (GeneratedImage u t a))
    (fun r t th w g => Ret (mkCandidate r t th w g))
    (fun m cs => match m with
                 | VList l => Ret (mkModelOutput l cs 0)
                 | _ => Raise ValueError
                 end)
    (fun i n d p b => Ret (mkGem i n d p b)).

Definition ext : Externals := ext_of [].

(** A service whose handshake always ends as [h] and whose every POST is
    answered by [p]. *)
Definition world (h : result (string * list (string * string)))
    (p : result Response) : World :=
  mkWorld (fun _ => h) (fun _ _ => p) 0 0.

Definition good_handshake : result (string * list (string * string)) :=
  Ret ("token", [("__Secure-1PSID", "psid")]).

(** A client that was never initialised, and one that is running. *)
Definition fresh_client : GeminiClient := GeminiClient_new "psid" None.

Definition running_client : GeminiClient :=
  mkGeminiClient [("__Secure-1PSID", "psid")] true true (Some "token")
    false false true None.

(** A wrapped function that fails the same way whenever it is called. *)
Definition always_raises (e : exn) (c : GeminiClient) (w : World)
    : result unit * GeminiClient * World :=
  (Raise e, c, w).

(** A session after a turn that came back with two candidates. *)
Definition candidate_a : Candidate :=
  mkCandidate (VStr "rc_a") (VStr "first answer") VNone [] [].

Definition candidate_b : Candidate :=
  mkCandidate (VStr "rc_b") (VStr "second answer") VNone [] [].

Definition two_candidates : ModelOutput :=
  mkModelOutput [VStr "c_1"; VStr "r_1"] [candidate_a; candidate_b] 0.

Definition session_after_turn : ChatSession :=
  mkChatSession [VStr "c_1"; VStr "r_1"; VStr "rc_a"] (Some two_candidates)
    (ModelMember "unspecified") None.

Definition nl : string := String Str.newline EmptyString.

(** A rejected request: no part has a payload, and the first part carries
    the code 1060 at [5][2][0][1][0]. *)
Definition blocked_line : string :=
  "[[null,null,null,null,null,[7,null,[[null,[1060]]]]]]".

Definition blocked_json : pyval :=
  VList [VList [VNone; VNone; VNone; VNone; VNone;
                VList [VInt 7; VNone; VList [VList [VNone; VList [VInt 1060]]]]]].

Definition blocked_text : string := ")]}'" ++ nl ++ nl ++ blocked_line.

Definition blocked_ext : Externals := ext_of [(blocked_line, blocked_json)].

(** A candidate that announces generated images: [candidate[12][7][0]] is
    not empty. *)
Definition generated_image : pyval :=
  VList [VList [VNone; VNone; VNone;
                VList [VNone; VNone; VNone; VStr "https://example.com/cat.png"]];
         VNone; VNone;
         VList [VNone; VNone; VNone; VNone; VNone; VList [VStr "a cat"]; VStr "1"]].

Definition image_candidate : pyval :=
  VList ([VStr "rc_1";
          VList [VStr "Here you go http://googleusercontent.com/image_generation_content/0"]]
         ++ replicate 10 VNone ++
         [VList (replicate 7 VNone ++ [VList [VList [generated_image]]])])%list.


(** An answered request: the second part carries the body, with the
    lineage [c_1, r_1] and one candidate. *)
Definition plain_candidate : pyval :=
  VList ([VStr "rc_1"; VList [VStr "Hello"]] ++ replicate 11 VNone)%list.

Definition answer_body (candidate : pyval) : pyval :=
  VList [VNone; VList [VStr "c_1"; VStr "r_1"]; VNone; VNone; VList [candidate]].

Definition answer_json : pyval :=
  VList [VList [VStr "wrb.fr"; VNone; VNone];
         VList [VStr "wrb.fr"; VNone; VStr "BODY"]].

Definition answer_text : string := ")]}'" ++ nl ++ nl ++ "OUTER".

Definition answer_ext (candidate : pyval) : Externals :=
  ext_of [("OUTER", answer_json); ("BODY", answer_body candidate)].

(** A candidate whose text is the card-content placeholder and whose
    item 22 holds the full answer. *)
Definition card_candidate : pyval :=
  VList ([VStr "rc_1";
          VList [VStr "http://googleusercontent.com/card_content/0"]]
         ++ replicate 20 VNone ++ [VList [VStr "Full answer"]])%list.

Definition new_session : ChatSession :=
  mkChatSession [VNone; VNone; VNone] None (ModelMember "unspecified") None.

End Sample.

(** ** The rest of the client's interface *)

(** The [gems] property. *)
Definition gems (c : GeminiClient) : result GemJar :=
  match _gems c with
  | None => Raise RuntimeError
  | Some jar => Ret jar
  end.

(** What [load_browser_cookies] (utils.py) does when [__init__] calls it:
    the optional dependency is missing ([ImportError]), or it returns the
    cookies it found, or it raises something else. *)
Inductive browser_outcome : Type :=
  | BrowserImportError
  | BrowserCookies (found : list (string * string))
  | BrowserRaises (e : exn).

Definition str_truthy (s : string) : bool := negb (Nat.eqb (String.length s) 0).

(** [GeminiClient.__init__(secure_1psid, secure_1psidts)]: the cookie
    validation.  The cookies found in the browser are checked and not
    kept. *)
Definition GeminiClient_init_cookies (secure_1psid secure_1psidts : option string)
    (browser : browser_outcome) : result GeminiClient :=
  let blank (cs : list (string * string)) :=
    mkGeminiClient cs false false None false false true None in
  match secure_1psid with
  | Some psid =>
      if str_truthy psid then
        Ret (blank
               (match secure_1psidts with
                | Some ts => if str_truthy ts
                             then [("__Secure-1PSID", psid); ("__Secure-1PSIDTS", ts)]
                             else [("__Secure-1PSID", psid)]
                | None => [("__Secure-1PSID", psid)]
                end))
      else
        match browser with
        | BrowserImportError => Ret (blank [])
        | BrowserRaises e => Raise e
        | BrowserCookies found =>
            match found, assoc_get "__Secure-1PSID" found with
            | _ :: _, Some v => if str_truthy v then Ret (blank []) else Raise ValueError
            | _, _ => Raise ValueError
            end
        end
  | None =>
      match browser with
      | BrowserImportError => Ret (blank [])
      | BrowserRaises e => Raise e
      | BrowserCookies found =>
          match found, assoc_get "__Secure-1PSID" found with
          | _ :: _, Some v => if str_truthy v then Ret (blank []) else Raise ValueError
          | _, _ => Raise ValueError
          end
      end
  end.

(** [GeminiClient.start_chat], with the keyword arguments it forwards. *)
Definition start_chat (metadata0 : option (list pyval)) (cid0 rid0 rcid0 : pyval)
    (model0 : model_arg) (gem0 : option gem_arg) : result ChatSession :=
  Session.new metadata0 cid0 rid0 rcid0 model0 gem0.

(** *** What can be done to a session, one call after the other *)

Inductive session_call : Type :=
  | CallSetMetadata (value : list pyval)
  | CallSetCid (value : pyval)
  | CallSetRid (value : pyval)
  | CallSetRcid (value : pyval)
  | CallSetLastOutput (value : ModelOutput)
  | CallChooseCandidate (index : Z).

(** The session a call leaves behind, whether it returns or raises. *)
Definition after_call (s : ChatSession) (k : session_call) : ChatSession :=
  match k with
  | CallSetMetadata v =>
      match Session.set_metadata s v with Ret s' => s' | Raise _ => s end
  | CallSetCid v => match Session.set_cid s v with Ret s' => s' | Raise _ => s end
  | CallSetRid v => match Session.set_rid s v with Ret s' => s' | Raise _ => s end
  | CallSetRcid v => match Session.set_rcid s v with Ret s' => s' | Raise _ => s end
  | CallSetLastOutput o => snd (Session.set_last_output s o)
  | CallChooseCandidate i => snd (Session.choose_candidate s i)
  end.

Definition after_calls (s : ChatSession) (ks : list session_call) : ChatSession :=
  fold_left after_call ks s.

(** Whether [generate_content] gets as far as sending: the prompt is not
    empty, the model is known and every upload succeeds. *)
Definition sends (ext : Externals) (prompt : string) (files : option (list string))
    (m : model_arg) (g : option gem_arg) (chat : option ChatSession) : bool :=
  negb (Nat.eqb (String.length prompt) 0) &&
  match resolve_model ext m with
  | Ret _ => match turn_envelope ext prompt files g chat with
             | Ret _ => true
             | Raise _ => false
             end
  | Raise _ => false
  end.


(** *** More sample responses *)

Module Sample2.

(** An outer array that starts with a JSON object; its second part holds a
    good body. *)
Definition object_first_json : pyval :=
  VList [VDict [("k", VNone)];
         VList [VStr "wrb.fr"; VNone; VStr "BODY"]].

Definition object_first_ext : Externals :=
  Sample.ext_of [("OUTER", object_first_json);
                 ("BODY", Sample.answer_body Sample.plain_candidate)].

(** A body whose candidate is too short to have an item 12. *)
Definition short_candidate_ext : Externals :=
  Sample.answer_ext (VList [VStr "rc_1"; VList [VStr "Hello"]]).

End Sample2.

(** The value a slot gets in [__init__]: the id given by name if there is
    one, else what [metadata] has there. *)
Definition slot_or (given inherited : pyval) : pyval :=
  if truthy given then given else inherited.

Fixpoint all_digits (s : string) : bool :=
  match s with
  | EmptyString => true
  | String c s' => Str.is_digit c && all_digits s'
  end.

Fixpoint all_space (s : string) : bool :=
  match s with
  | EmptyString => true
  | String c s' => Str.is_space c && all_space s'
  end.


(** ** Initialisation, for any caller *)

(** [GeminiClient.init(auto_close=auto_close0, auto_refresh=auto_refresh0)]
    as any caller may write it: [self.auto_close] and [self.auto_refresh]
    are set from the arguments once the handshake has succeeded, the close
    task is scheduled when the new [auto_close] holds, and the cookie is
    looked up after both assignments.  [init] above is this function at
    the client's own settings, which is how the decorator calls it. *)
Definition init_with (auto_close0 auto_refresh0 : bool)
    (c : GeminiClient) (w : World) : result unit * GeminiClient * World :=
  let '(h, w') := do_handshake w in
  match h with
  | Raise e => (Raise e, close c, w')
  | Ret (token, valid_cookies) =>
      let c1 :=
        mkGeminiClient valid_cookies true true (Some token) auto_close0
          (close_task c) auto_refresh0 (_gems c) in
      let c2 := if auto_close c1 then reset_close_task c1 else c1 in
      match assoc_get "__Secure-1PSID" (cookies c2) with
      | None => (Raise KeyError, close c2, w')
      | Some _ => (Ret tt, c2, w')
      end
  end.

(** Modelled from the spec: [get_access_token] (utils.py) is not among the
    sources.  The spec has the handshake fail with [AuthError] when the
    service rejects the seed cookies or no token can be extracted.  What
    the decorator depends on is only that such a failure is not an
    [APIError], which [AuthError] is not; this is all that is asked of the
    handshakes here. *)
Definition handshake_raises_no_APIError (w : World) : Prop :=
  forall n e, handshake w n = Raise e -> isinstance e APIError = false.

(** * Properties *)

(** ** The definitions on small inputs *)

Example split_on_3 :
  Str.split_on "/"%char "a//bc" = ["a"; ""; "bc"].
Proof. reflexivity. Qed.

Example is_card_content_yes :
  Str.is_card_content "http://googleusercontent.com/card_content/0 x" = true.
Proof. reflexivity. Qed.

Example is_card_content_no_digit :
  Str.is_card_content "http://googleusercontent.com/card_content/x" = false.
Proof. reflexivity. Qed.

Example strip_image_markers_ex :
  Str.strip_image_markers
    "Sure! http://googleusercontent.com/image_generation_content/12 ok  "
  = "Sure!  ok".
Proof. reflexivity. Qed.

(** The no-break space U+00A0 and the next-line control U+0085 are
    whitespace to [rstrip]; the superscript two U+00B2 is no [\d]. *)
Example rstrip_latin1_spaces :
  Str.rstrip (String "a" (String (ascii_of_nat 160) (String (ascii_of_nat 133) " ")))
  = "a".
Proof. reflexivity. Qed.

Example is_card_content_superscript :
  Str.is_card_content
    (Str.card_content ++ String (ascii_of_nat 178) EmptyString) = false.
Proof. reflexivity. Qed.

Example new_session_with_ids :
  Session.new (Some [VStr "c1"]) VNone (VStr "r1") VNone (ModelMember "unspecified") None
  = Ret (mkChatSession [VStr "c1"; VStr "r1"; VNone] None (ModelMember "unspecified") None).
Proof. reflexivity. Qed.


Example new_session_is_new :
  Session.new None VNone VNone VNone (ModelMember "unspecified") None
  = Ret Sample.new_session.
Proof. reflexivity. Qed.

Example isinstance_bases :
  isinstance ImageGenerationError APIError = true /\
  isinstance TemporarilyBlocked GeminiError = true /\
  isinstance TemporarilyBlocked APIError = false /\
  isinstance AuthError APIError = false /\
  isinstance KeyError IndexError = false /\
  isinstance IndexError LookupError = true.
Proof. repeat split. Qed.

Example getitem_negative :
  getitem (VList [VInt 1; VInt 2; VInt 3]) (-1) = Ret (VInt 3) /\
  getitem (VList [VInt 1; VInt 2; VInt 3]) 3 = Raise IndexError /\
  getitem (VStr "abc") 1 = Ret (VStr "b") /\
  getitem (VDict [("k", VNone)]) 0 = Raise KeyError /\
  getitem VNone 0 = Raise TypeError.
Proof. repeat split. Qed.

(** A first message through a new session: the output, and the lineage the
    session holds afterwards. *)
Example send_message_first_turn :
  option_map (fun r => (outcome r, option_map metadata (snd (final_rest r)), trace r))
    (send_message (Sample.answer_ext Sample.plain_candidate) Sample.new_session
       "hi" None default_retry Sample.fresh_client
       (Sample.world Sample.good_handshake
          (Ret (mkResponse 200 Sample.answer_text))))
  = Some (Ret (mkModelOutput [VStr "c_1"; VStr "r_1"]
                 [mkCandidate (VStr "rc_1") (VStr "Hello") VNone [] []] 0),
          Some [VStr "c_1"; VStr "r_1"; VStr "rc_1"],
          [EInit; ECall]).
Proof. reflexivity. Qed.

(** The card-content placeholder gives way to the text at [[22][0]]. *)
Example card_content_text :
  candidate_text Sample.card_candidate = Ret (VStr "Full answer").
Proof. reflexivity. Qed.

(** A candidate with the marker, in the body it comes from: the scan stops
    at the body and the images are read from it. *)
Example generated_images_from_body :
  fst (fst (parse_response (Sample.answer_ext Sample.image_candidate)
              Sample.running_client None Sample.answer_text))
  = Ret (mkModelOutput [VStr "c_1"; VStr "r_1"]
           [mkCandidate (VStr "rc_1") (VStr "Here you go") VNone []
              [GeneratedImage (VStr "https://example.com/cat.png")
                 "[Generated Image 1]" (VStr "a cat")]] 0).
Proof. reflexivity. Qed.

(** ** The decorator terminates and unfolds as the source reads *)

Section RunningFacts.
Context {X A : Type}.
Variable client_init : GeminiClient -> X -> result unit * GeminiClient * X.
Variable func : GeminiClient -> X -> result A * GeminiClient * X.

Abbreviation wrapper_fuel' := (wrapper_fuel client_init func).
Abbreviation wrapper' := (wrapper client_init func).
Abbreviation attempt' := (attempt client_init func).

Lemma budget_after_le (e : exn) (retry : Z) : budget_after e retry <= retry.
Proof. unfold budget_after. destruct (isinstance e ImageGenerationError); lia. Qed.

Lemma wrapper_fuel_mono (n : nat) :
  forall (m : nat) (retry : Z) (c : GeminiClient) (x : X) (r : run),
    wrapper_fuel' n retry c x = Some r -> (n <= m)%nat ->
    wrapper_fuel' m retry c x = Some r.
Proof.
  induction n as [|n IH]; intros m retry c x r H Hle; [discriminate|].
  destruct m as [|m]; [lia|].
  simpl in *.
  destruct (outcome (attempt' c x)) as [a|e]; [exact H|].
  destruct (isinstance e APIError); [|exact H].
  destruct (Z.ltb 0 (budget_after e retry)); [|exact H].
  destruct (wrapper_fuel' n _ _ _) as [r'|] eqn:E; [|discriminate].
  rewrite (IH m _ _ _ _ E) by lia. exact H.
Qed.

Lemma wrapper_fuel_total (n : nat) :
  forall (retry : Z) (c : GeminiClient) (x : X),
    (Z.to_nat retry < n)%nat -> exists r, wrapper_fuel' n retry c x = Some r.
Proof.
  induction n as [|n IH]; intros retry c x Hlt; [lia|].
  simpl.
  destruct (outcome (attempt' c x)) as [a|e]; [eauto|].
  destruct (isinstance e APIError); [|eauto].
  destruct (Z.ltb 0 (budget_after e retry)) eqn:Hb; [|eauto].
  apply Z.ltb_lt in Hb.
  pose proof (budget_after_le e retry) as Hle.
  destruct (IH (budget_after e retry - 1) (final_client (attempt' c x))
              (final_rest (attempt' c x))) as [r Hr]; [lia|].
  rewrite Hr. eauto.
Qed.

(** A wrapped call always ends. *)
Lemma wrapper_total (retry : Z) (c : GeminiClient) (x : X) :
  exists r, wrapper' retry c x = Some r.
Proof. apply wrapper_fuel_total. lia. Qed.

(** The wrapped call, read off the source: the attempt'; on an [APIError]
    with budget left, a sleep and the call again with one retry less. *)
Lemma wrapper_unfold (retry : Z) (c : GeminiClient) (x : X) :
  wrapper' retry c x =
  let a := attempt' c x in
  match outcome a with
  | Ret _ => Some a
  | Raise e =>
      if isinstance e APIError then
        if Z.ltb 0 (budget_after e retry) then
          match wrapper' (budget_after e retry - 1) (final_client a) (final_rest a) with
          | Some r =>
              Some (mkRun (outcome r) (final_client r) (final_rest r)
                      (trace a ++ ESleep :: trace r))
          | None => None
          end
        else Some a
      else Some a
  end.
Proof.
  unfold wrapper at 1. simpl.
  destruct (outcome (attempt' c x)) as [a|e]; [reflexivity|].
  destruct (isinstance e APIError); [|reflexivity].
  destruct (Z.ltb 0 (budget_after e retry)) eqn:Hb; [|reflexivity].
  apply Z.ltb_lt in Hb.
  pose proof (budget_after_le e retry) as Hle.
  destruct (wrapper_total (budget_after e retry - 1) (final_client (attempt' c x))
              (final_rest (attempt' c x))) as [r Hr].
  rewrite Hr.
  rewrite (wrapper_fuel_mono _ (Z.to_nat retry) _ _ _ _ Hr) by lia.
  reflexivity.
Qed.

(** With no budget left the attempt' is the whole call. *)
Lemma wrapper_no_budget (retry : Z) (c : GeminiClient) (x : X) :
  retry <= 0 -> wrapper' retry c x = Some (attempt' c x).
Proof.
  intros Hr. rewrite wrapper_unfold. simpl.
  destruct (outcome (attempt' c x)) as [a|e]; [reflexivity|].
  destruct (isinstance e APIError); [|reflexivity].
  pose proof (budget_after_le e retry) as Hle.
  destruct (Z.ltb 0 (budget_after e retry)) eqn:Hb; [|reflexivity].
  apply Z.ltb_lt in Hb. lia.
Qed.

End RunningFacts.

(** ** The decorator: initialisation and retries *)

Section RunningClaims.
Context {X A : Type}.
Variable client_init : GeminiClient -> X -> result unit * GeminiClient * X.
Variable func : GeminiClient -> X -> result A * GeminiClient * X.

Abbreviation wrapper_fuel' := (wrapper_fuel client_init func).
Abbreviation wrapper' := (wrapper client_init func).
Abbreviation attempt' := (attempt client_init func).

Lemma attempt_not_running (c : GeminiClient) (x : X) (ri : result unit)
    (c1 : GeminiClient) (x1 : X) :
  running c = false ->
  client_init c x = (ri, c1, x1) ->
  attempt' c x =
    match ri with
    | Raise e => mkRun (Raise e) c1 x1 [EInit]
    | Ret _ =>
        if running c1
        then mkRun (fst (fst (func c1 x1))) (snd (fst (func c1 x1)))
               (snd (func c1 x1)) [EInit; ECall]
        else mkRun (Raise APIError) c1 x1 [EInit]
    end.
Proof.
  intros Hc Hi. unfold attempt. rewrite Hc, Hi. simpl.
  destruct ri; [|reflexivity].
  destruct (running c1); [|reflexivity].
  destruct (func c1 x1) as [[r2 c2] x2]. reflexivity.
Qed.

Lemma attempt_running (c : GeminiClient) (x : X) :
  running c = true ->
  attempt' c x =
    mkRun (fst (fst (func c x))) (snd (fst (func c x))) (snd (func c x)) [ECall].
Proof.
  intros Hc. unfold attempt. rewrite Hc. simpl.
  destruct (func c x) as [[r2 c2] x2]. reflexivity.
Qed.

(** The decorator on its own, for any [client_init].  When the client is
    not running, [client_init] is the first thing the call does.  An
    exception of [client_init] that is not an [APIError] ends the call at
    once, whatever the budget.  The [except APIError] clause also encloses
    the initialisation, so an [APIError] at that point would be handled
    like one of the function; with [GeminiClient.init] and a handshake
    that raises no [APIError] there is none (see
    [init_failure_not_APIError] below). *)
Lemma running_init_failure (retry : Z) (c : GeminiClient) (x : X)
    (ri : result unit) (c1 : GeminiClient) (x1 : X) :
  running c = false ->
  client_init c x = (ri, c1, x1) ->
  (exists r tr, wrapper' retry c x = Some r /\ trace r = EInit :: tr) /\
  (forall e, ri = Raise e -> isinstance e APIError = false ->
     wrapper' retry c x = Some (mkRun (Raise e) c1 x1 [EInit])) /\
  (forall e,
     (ri = Raise e /\ isinstance e APIError = true) \/
     (ri = Ret tt /\ running c1 = false /\ e = APIError) ->
     (budget_after e retry <= 0 ->
        wrapper' retry c x = Some (mkRun (Raise e) c1 x1 [EInit])) /\
     (0 < budget_after e retry ->
        exists r, wrapper' (budget_after e retry - 1) c1 x1 = Some r /\
          wrapper' retry c x =
            Some (mkRun (outcome r) (final_client r) (final_rest r)
                    (EInit :: ESleep :: trace r)))).
Proof.
  intros Hc Hi.
  pose proof (attempt_not_running c x ri c1 x1 Hc Hi) as Ha.
  split; [|split].
  - destruct (wrapper_total client_init func retry c x) as [r Hr].
    exists r. pose proof Hr as Hr0.
    rewrite wrapper_unfold in Hr. cbv zeta in Hr.
    assert (Ht : exists tr, trace (attempt' c x) = EInit :: tr).
    { rewrite Ha. destruct ri; [destruct (running c1)|]; simpl; eauto. }
    destruct Ht as [tr Ht].
    destruct (outcome (attempt' c x)) as [a|e].
    { exists tr. split; [exact Hr0|]. inversion Hr; subst. exact Ht. }
    destruct (isinstance e APIError).
    2:{ exists tr. split; [exact Hr0|]. inversion Hr; subst. exact Ht. }
    destruct (Z.ltb 0 (budget_after e retry)).
    2:{ exists tr. split; [exact Hr0|]. inversion Hr; subst. exact Ht. }
    destruct (wrapper client_init func (budget_after e retry - 1) _ _) as [r'|];
      [|discriminate].
    inversion Hr; subst. eexists. split; [exact Hr0|].
    cbn [trace]. rewrite Ht. reflexivity.
  - intros e -> He. rewrite wrapper_unfold, Ha. simpl. rewrite He. reflexivity.
  - intros e He.
    assert (Hat : attempt' c x = mkRun (Raise e) c1 x1 [EInit] /\
                  isinstance e APIError = true).
    { destruct He as [[-> He]|[-> [Hr ->]]].
      - rewrite Ha. auto.
      - rewrite Ha, Hr. auto. }
    destruct Hat as [Hat HeA].
    split.
    + intros Hb. rewrite wrapper_unfold, Hat. simpl. rewrite HeA.
      destruct (Z.ltb 0 (budget_after e retry)) eqn:E; [|reflexivity].
      apply Z.ltb_lt in E. lia.
    + intros Hb.
      destruct (wrapper_total client_init func (budget_after e retry - 1) c1 x1)
        as [r Hr].
      exists r. split; [exact Hr|].
      rewrite wrapper_unfold, Hat. simpl. rewrite HeA.
      apply Z.ltb_lt in Hb. rewrite Hb, Hr. reflexivity.
Qed.

(** *** A function that always fails with [ImageGenerationError] *)

Hypothesis func_fails :
  forall c x, exists c' x', func c x = (Raise ImageGenerationError, c', x').

Lemma attempt_calls (c : GeminiClient) (x : X) :
  (count_event ECall (trace (attempt' c x)) <= 1)%nat /\
  (count_event ECall (trace (attempt' c x)) = 1%nat ->
   outcome (attempt' c x) = Raise ImageGenerationError).
Proof.
  unfold attempt.
  destruct (running c); simpl.
  - destruct (func_fails c x) as (c' & x' & ->). simpl. auto.
  - destruct (client_init c x) as [[ri c1] x1].
    destruct ri as [u|e]; simpl; [|split; [cbv; lia|cbv; discriminate]].
    destruct (running c1); simpl; [|split; [cbv; lia|cbv; discriminate]].
    destruct (func_fails c1 x1) as (c' & x' & ->). simpl. auto.
Qed.

Lemma count_event_app (e : event) (t1 t2 : list event) :
  count_event e (t1 ++ t2) = (count_event e t1 + count_event e t2)%nat.
Proof. unfold count_event. rewrite List.filter_app, List.length_app. reflexivity. Qed.

Lemma wrapper_fuel_calls (n : nat) :
  forall (retry : Z) (c : GeminiClient) (x : X) (r : run),
    wrapper_fuel' n retry c x = Some r ->
    (count_event ECall (trace r) <= 2)%nat /\
    (retry <= 0 -> (count_event ECall (trace r) <= 1)%nat).
Proof.
  induction n as [|n IH]; intros retry c x r H; [discriminate|].
  simpl in H.
  destruct (attempt_calls c x) as [Hle Hige].
  destruct (outcome (attempt' c x)) as [a|e] eqn:Ho.
  { inversion H; subst. split; intros; lia. }
  destruct (isinstance e APIError).
  2:{ inversion H; subst. split; intros; lia. }
  destruct (Z.ltb 0 (budget_after e retry)) eqn:Hb.
  2:{ inversion H; subst. split; intros; lia. }
  apply Z.ltb_lt in Hb.
  pose proof (budget_after_le e retry) as Hbl.
  destruct (wrapper_fuel' n _ _ _) as [r'|] eqn:Hr; [|discriminate].
  inversion H; subst. simpl.
  destruct (IH _ _ _ _ Hr) as [IH2 IH1].
  rewrite count_event_app. simpl.
  change (count_event ECall (ESleep :: trace r')) with (count_event ECall (trace r')).
  split; [|intros; lia].
  destruct (Nat.eq_dec (count_event ECall (trace (attempt' c x))) 1%nat) as [E1|E1].
  - specialize (Hige E1). injection Hige as ->.
    unfold budget_after in *. simpl in *.
    assert (count_event ECall (trace r') <= 1)%nat by (apply IH1; lia).
    lia.
  - lia.
Qed.

(** C2.  Whatever the budget, a call whose function fails with
    [ImageGenerationError] every time invokes it at most twice; the budget
    left after such a failure is at most 1; and with a running client, a
    function that leaves it running and a positive budget (3, say) the call
    is exactly: attempt, sleep, attempt, [ImageGenerationError]. *)
Theorem running_image_generation_retry (retry : Z) (c : GeminiClient) (x : X) :
  budget_after ImageGenerationError retry <= 1 /\
  exists r, wrapper' retry c x = Some r /\
    (count_event ECall (trace r) <= 2)%nat /\
    (running c = true ->
     (forall c0 x0, running c0 = true -> running (snd (fst (func c0 x0))) = true) ->
     0 < retry ->
     trace r = [ECall; ESleep; ECall] /\ outcome r = Raise ImageGenerationError).
Proof.
  split.
  { unfold budget_after. simpl. lia. }
  destruct (wrapper_total client_init func retry c x) as [r Hr].
  exists r. split; [exact Hr|]. split.
  { exact (proj1 (wrapper_fuel_calls _ _ _ _ _ Hr)). }
  intros Hc Hkeep Hpos.
  rewrite wrapper_unfold in Hr. cbv zeta in Hr.
  rewrite (attempt_running c x Hc) in Hr.
  pose proof (Hkeep c x Hc) as Hc1.
  destruct (func_fails c x) as (c1 & x1 & E1). rewrite E1 in Hr, Hc1. simpl in Hr, Hc1.
  unfold budget_after in Hr. simpl in Hr.
  assert (Hm : Z.ltb 0 (Z.min 1 retry) = true) by (apply Z.ltb_lt; lia).
  rewrite Hm in Hr.
  rewrite wrapper_no_budget in Hr by lia.
  rewrite (attempt_running c1 x1 Hc1) in Hr.
  destruct (func_fails c1 x1) as (c2 & x2 & E2). rewrite E2 in Hr. simpl in Hr.
  inversion Hr; subst. simpl. auto.
Qed.

End RunningClaims.

(** *** Initialisation failure in the decorated methods *)

(** When [GeminiClient.init] leaves the client not running it has raised,
    and what it raised is the exception of the handshake or the
    [KeyError] of the cookie lookup: no [APIError]. *)
Lemma init_failure_not_APIError (c : GeminiClient) (w : World) :
  handshake_raises_no_APIError w ->
  running (snd (fst (init c w))) = false ->
  exists e, fst (fst (init c w)) = Raise e /\ isinstance e APIError = false.
Proof.
  intros Hh. unfold init, do_handshake.
  destruct (handshake w (handshakes_done w)) as [[token vc]|e] eqn:Eh.
  - match goal with |- context [match ?m with Some _ => _ | None => _ end] =>
      destruct m end.
    + cbn. destruct (auto_close c); discriminate.
    + intros _. exists KeyError. split; reflexivity.
  - intros _. exists e. split; [reflexivity|]. exact (Hh _ _ Eh).
Qed.

(** C1.  A decorated call ([fetch_gems], [generate_content]) on a client
    that is not running starts with [client.init].  When the client is not
    running after that initialisation, the call ends there with the
    exception [init] raised: the function is not invoked, nothing sleeps
    and nothing is tried again, whatever the budget [retry].  The handshake
    is taken to fail with no [APIError] ([AuthError], as the spec has
    it). *)
Theorem decorated_call_init_failure (ext : Externals) (prompt : string)
    (files : option (list string)) (m : model_arg) (g : option gem_arg)
    (chat : option ChatSession) (retry : Z) (c : GeminiClient) (w : World) :
  running c = false ->
  handshake_raises_no_APIError w ->
  let c1 := snd (fst (init c w)) in
  let w1 := snd (init c w) in
  (exists r tr,
     GeminiClient_fetch_gems ext retry c w = Some r /\ trace r = EInit :: tr) /\
  (exists r tr,
     GeminiClient_generate_content ext prompt files m g retry c (w, chat) = Some r /\
     trace r = EInit :: tr) /\
  (running c1 = false ->
   exists e,
     fst (fst (init c w)) = Raise e /\
     GeminiClient_fetch_gems ext retry c w
       = Some (mkRun (Raise e) c1 w1 [EInit]) /\
     GeminiClient_generate_content ext prompt files m g retry c (w, chat)
       = Some (mkRun (Raise e) c1 (w1, chat) [EInit])).
Proof.
  intros Hc Hh c1 w1.
  assert (Hi : init c w = (fst (fst (init c w)), c1, w1)).
  { subst c1 w1. destruct (init c w) as [[ri c'] w']. reflexivity. }
  assert (Hl : lift_init c (w, chat) = (fst (fst (init c w)), c1, (w1, chat))).
  { unfold lift_init. cbn [fst snd]. rewrite Hi. reflexivity. }
  unfold GeminiClient_fetch_gems, GeminiClient_generate_content.
  split; [|split].
  - exact (proj1 (running_init_failure init (fetch_gems ext) retry c w _ _ _ Hc Hi)).
  - exact (proj1 (running_init_failure lift_init
                    (generate_content ext prompt files m g) retry c (w, chat)
                    _ _ _ Hc Hl)).
  - intros Hn.
    destruct (init_failure_not_APIError c w Hh Hn) as [e [He HeA]].
    exists e. split; [exact He|]. split.
    + exact (proj1 (proj2 (running_init_failure init (fetch_gems ext) retry c w
                             _ _ _ Hc Hi)) e He HeA).
    + exact (proj1 (proj2 (running_init_failure lift_init
                             (generate_content ext prompt files m g) retry c
                             (w, chat) _ _ _ Hc Hl)) e He HeA).
Qed.

(** A handshake refused with [AuthError]: with a budget of 2 both calls
    end after the one initialisation. *)
Lemma decorated_call_init_failure_witness :
  let w := Sample.world (Raise AuthError) (Raise ReadTimeout) in
  let w1 := mkWorld (fun _ => Raise AuthError) (fun _ _ => Raise ReadTimeout) 1 0 in
  running Sample.fresh_client = false /\
  handshake_raises_no_APIError w /\
  GeminiClient_fetch_gems Sample.ext 2 Sample.fresh_client w
    = Some (mkRun (Raise AuthError) (close Sample.fresh_client) w1 [EInit]) /\
  GeminiClient_generate_content Sample.ext "hi" None (ModelMember "unspecified")
      None 2 Sample.fresh_client (w, None)
    = Some (mkRun (Raise AuthError) (close Sample.fresh_client) (w1, None) [EInit]).
Proof.
  intros w w1.
  assert (Hh : handshake_raises_no_APIError w).
  { intros n e H. injection H as <-. reflexivity. }
  split; [reflexivity|]. split; [exact Hh|].
  destruct (proj2 (proj2 (decorated_call_init_failure Sample.ext "hi" None
                            (ModelMember "unspecified") None None 2
                            Sample.fresh_client w eq_refl Hh)) eq_refl)
    as [e [He [Hf Hg]]].
  injection He as <-.
  split; [exact Hf|exact Hg].
Defined.

(** For comparison: an [APIError] that is not an [ImageGenerationError]
    uses the whole budget, four invocations with a budget of 3. *)
Example api_error_uses_whole_budget :
  option_map (fun r => count_event ECall (trace r))
    (wrapper init (Sample.always_raises APIError) 3 Sample.running_client
       (Sample.world Sample.good_handshake (Raise ReadTimeout)))
  = Some 4%nat.
Proof. reflexivity. Qed.

(** A budget of 3 and a running client: two invocations, one sleep. *)
Lemma running_image_generation_retry_witness :
  exists r,
    wrapper init (Sample.always_raises ImageGenerationError) 3 Sample.running_client
      (Sample.world Sample.good_handshake (Raise ReadTimeout)) = Some r /\
    (count_event ECall (trace r) <= 2)%nat /\
    trace r = [ECall; ESleep; ECall] /\
    outcome r = Raise ImageGenerationError.
Proof.
  destruct (running_image_generation_retry init
              (Sample.always_raises ImageGenerationError)
              (fun c x => ex_intro _ c (ex_intro _ x eq_refl))
              3 Sample.running_client
              (Sample.world Sample.good_handshake (Raise ReadTimeout)))
    as [_ [r [Hr [Hn Hex]]]].
  exists r. split; [exact Hr|]. split; [exact Hn|].
  exact (Hex eq_refl (fun _ _ H => H) eq_refl).
Defined.

(** ** The turn envelope *)

Lemma turn_envelope_shape (ext : Externals) (prompt : string)
    (files : option (list string)) (g : option gem_arg)
    (chat : option ChatSession) (env : list pyval) :
  turn_envelope ext prompt files g chat = Ret env ->
  exists content,
    content_envelope ext prompt files = Ret content /\
    env = ([content; VNone; lineage_slot chat] ++ gem_suffix (gem_value g))%list.
Proof.
  unfold turn_envelope. intros H.
  destruct (content_envelope ext prompt files) as [content|e]; simpl in H;
    [|discriminate].
  exists content. split; [reflexivity|]. injection H as <-. reflexivity.
Qed.

(** A session made with no ids starts from three empty slots. *)
Lemma new_session_blank (m : model_arg) (gm : option gem_arg) (s : ChatSession) :
  Session.new None VNone VNone VNone m gm = Ret s ->
  metadata s = [VNone; VNone; VNone] /\ last_output s = None.
Proof. cbv. intros H. injection H as <-. auto. Qed.

(** C3 (as amended).  In a request made through a session the lineage slot
    (position 2 of the turn envelope) is the session's own three-slot list,
    never null; for a session made with no ids that is
    [[null, null, null]].  The slot is null when the request is made
    without a session. *)
Theorem turn_envelope_lineage (ext : Externals) (prompt : string)
    (files : option (list string)) (g : option gem_arg)
    (chat : option ChatSession) (env : list pyval) :
  turn_envelope ext prompt files g chat = Ret env ->
  (chat = None -> env !! 2%nat = Some VNone) /\
  (forall s, chat = Some s ->
     env !! 2%nat = Some (VList (metadata s)) /\ env !! 2%nat <> Some VNone) /\
  (forall s m gm, chat = Some s ->
     Session.new None VNone VNone VNone m gm = Ret s ->
     env !! 2%nat = Some (VList [VNone; VNone; VNone])).
Proof.
  intros H. destruct (turn_envelope_shape _ _ _ _ _ _ H) as (content & _ & ->).
  split; [|split].
  - intros ->. reflexivity.
  - intros s ->. split; [reflexivity|]. simpl. discriminate.
  - intros s m gm -> Hs. destruct (new_session_blank _ _ _ Hs) as [Hm _].
    simpl. rewrite Hm. reflexivity.
Qed.

(** The first message of a new session. *)
Lemma turn_envelope_lineage_witness :
  turn_envelope Sample.ext "hi" None None
    (Some (mkChatSession [VNone; VNone; VNone] None (ModelMember "unspecified") None))
  = Ret [VList [VStr "hi"]; VNone; VList [VNone; VNone; VNone]] /\
  [VList [VStr "hi"]; VNone; VList [VNone; VNone; VNone]] !! 2%nat
  = Some (VList [VNone; VNone; VNone]).
Proof.
  split; [reflexivity|].
  exact (proj2 (proj2 (turn_envelope_lineage Sample.ext "hi" None None _ _ eq_refl))
           _ (ModelMember "unspecified") None eq_refl eq_refl).
Defined.

(** C3 as stated does not hold: a session that was just made has completed
    no turn, and its request carries [[null, null, null]] in the lineage
    slot, which is neither null nor absent. *)
Lemma fresh_session_lineage_not_omitted :
  ~ (forall (prompt : string) (s : ChatSession) (env : list pyval),
       last_output s = None ->
       turn_envelope Sample.ext prompt None None (Some s) = Ret env ->
       env !! 2%nat = Some VNone \/ env !! 2%nat = None).
Proof.
  intros H.
  destruct (H "hi"
              (mkChatSession [VNone; VNone; VNone] None (ModelMember "unspecified") None)
              [VList [VStr "hi"]; VNone; VList [VNone; VNone; VNone]]
              eq_refl eq_refl) as [E|E]; discriminate E.
Qed.

(** The envelope is what [generate_content] sends: the POST it makes, if
    it gets that far, carries [turn_envelope] doubly encoded. *)
Lemma generate_content_sends (ext : Externals) (prompt : string)
    (files : option (list string)) (m : model_arg) (g : option gem_arg)
    (c : GeminiClient) (w : World) (chat : option ChatSession)
    (name : string) (envelope : list pyval) :
  String.length prompt <> 0%nat ->
  resolve_model ext m = Ret name ->
  turn_envelope ext prompt files g chat = Ret envelope ->
  let c1 := if auto_close c then reset_close_task c else c in
  let rq := generate_request ext c1 envelope in
  req_f_req rq = dumps ext (VList [VNone; VStr (dumps ext (VList envelope))]) /\
  fst (snd (generate_content ext prompt files m g c (w, chat)))
  = snd (do_post w rq) /\
  (forall e, post w (posts_done w) rq = Raise e ->
     fst (fst (generate_content ext prompt files m g c (w, chat)))
     = Raise (on_read_timeout e)).
Proof.
  intros Hp Hm He c1 rq. split; [reflexivity|].
  unfold generate_content.
  destruct (Nat.eqb_spec (String.length prompt) 0); [contradiction|].
  rewrite Hm, He. fold c1. fold rq. unfold do_post.
  destruct (post w (posts_done w) rq) as [response|e0] eqn:E.
  - split; [|discriminate].
    destruct (negb (Z.eqb (status_code response) 200)); [reflexivity|].
    destruct (parse_response ext c1 chat (text response)) as [[out c2] chat'].
    reflexivity.
  - split; [reflexivity|]. intros e He0. injection He0 as <-. reflexivity.
Qed.

(** C4.  With a gem id supplied (a value the guard [gem and ...] takes as
    true, that is anything but [None] and the empty string) the envelope is
    the three leading slots, then 16 nulls, then the id: the id is at
    position 2 + 17, the envelope has 20 slots.  With no gem nothing
    follows the lineage slot. *)
Theorem turn_envelope_gem (ext : Externals) (prompt : string)
    (files : option (list string)) (g : option gem_arg)
    (chat : option ChatSession) (env : list pyval) :
  turn_envelope ext prompt files g chat = Ret env ->
  exists content,
    content_envelope ext prompt files = Ret content /\
    (truthy (gem_value g) = true ->
       env = ([content; VNone; lineage_slot chat] ++ replicate 16 VNone
                ++ [gem_value g])%list /\
       List.length env = 20%nat /\
       env !! (2 + 17)%nat = Some (gem_value g) /\
       (forall k, (2 < k < 2 + 17)%nat -> env !! k = Some VNone)) /\
    (truthy (gem_value g) = false -> env = [content; VNone; lineage_slot chat]) /\
    (g = None -> env = [content; VNone; lineage_slot chat]).
Proof.
  intros H. destruct (turn_envelope_shape _ _ _ _ _ _ H) as (content & Hc & ->).
  exists content. split; [exact Hc|]. unfold gem_suffix, py_or.
  split; [|split].
  - intros Ht. rewrite Ht. cbn [truthy List.length app Nat.eqb negb].
    split; [reflexivity|]. split; [reflexivity|]. split; [reflexivity|].
    intros k Hk.
    do 19 (destruct k as [|k]; [first [reflexivity | lia]|]). lia.
  - intros Ht. rewrite Ht, Ht. reflexivity.
  - intros ->. reflexivity.
Qed.

Lemma turn_envelope_gem_witness :
  turn_envelope Sample.ext "hi" None (Some (GemId (VStr "coding-partner"))) None
  = Ret ([VList [VStr "hi"]; VNone; VNone] ++ replicate 16 VNone
           ++ [VStr "coding-partner"])%list.
Proof.
  destruct (turn_envelope_gem Sample.ext "hi" None
              (Some (GemId (VStr "coding-partner"))) None _ eq_refl)
    as [content [Hc [Hg _]]].
  injection Hc as <-.
  destruct (Hg eq_refl) as [-> _]. reflexivity.
Defined.

(** ** The session: lineage and choice of a candidate *)

(** Every session [__init__] returns has three lineage slots, and the
    setters keep it so. *)
Lemma set_metadata_length (s s' : ChatSession) (value : list pyval) :
  List.length (metadata s) = 3%nat ->
  Session.set_metadata s value = Ret s' ->
  List.length (metadata s') = 3%nat.
Proof.
  unfold Session.set_metadata. intros Hl H.
  destruct (Z.ltb 3 (Z.of_nat (List.length value))) eqn:E; [discriminate|].
  apply Z.ltb_ge in E. injection H as <-. simpl.
  rewrite List.length_app, length_drop. lia.
Qed.

Lemma set_slot_length (i : Z) (s s' : ChatSession) (v : pyval) :
  Session.set_slot i s v = Ret s' ->
  List.length (metadata s') = List.length (metadata s).
Proof.
  unfold Session.set_slot, list_setitem. intros H.
  destruct (norm_index _ i); simpl in H; [|discriminate].
  injection H as <-. simpl. apply length_insert.
Qed.

Lemma new_length (metadata0 : option (list pyval)) (cid0 rid0 rcid0 : pyval)
    (m : model_arg) (gm : option gem_arg) (s : ChatSession) :
  Session.new metadata0 cid0 rid0 rcid0 m gm = Ret s ->
  List.length (metadata s) = 3%nat.
Proof.
  unfold Session.new. intros H.
  set (s0 := mkChatSession [VNone; VNone; VNone] None m gm) in H.
  assert (H0 : List.length (metadata s0) = 3%nat) by reflexivity.
  destruct (match metadata0 with
            | Some m0 => if truthy (VList m0) then Session.set_metadata s0 m0 else Ret s0
            | None => Ret s0
            end) as [s1|e] eqn:E1; simpl in H; [|discriminate].
  assert (H1 : List.length (metadata s1) = 3%nat).
  { destruct metadata0 as [m0|]; [destruct (truthy (VList m0))|];
      first [injection E1 as <-; exact H0 | exact (set_metadata_length _ _ _ H0 E1)]. }
  destruct (if truthy cid0 then Session.set_cid s1 cid0 else Ret s1) as [s2|e] eqn:E2;
    simpl in H; [|discriminate].
  assert (H2 : List.length (metadata s2) = 3%nat).
  { destruct (truthy cid0); [rewrite (set_slot_length _ _ _ _ E2); exact H1|].
    injection E2 as <-. exact H1. }
  destruct (if truthy rid0 then Session.set_rid s2 rid0 else Ret s2) as [s3|e] eqn:E3;
    simpl in H; [|discriminate].
  assert (H3 : List.length (metadata s3) = 3%nat).
  { destruct (truthy rid0); [rewrite (set_slot_length _ _ _ _ E3); exact H2|].
    injection E3 as <-. exact H2. }
  destruct (truthy rcid0); [rewrite (set_slot_length _ _ _ _ H); exact H3|].
  injection H as <-. exact H3.
Qed.

Lemma norm_index_small (n : nat) (k : nat) :
  (k < n)%nat -> norm_index n (Z.of_nat k) = Some k.
Proof.
  intros Hk. unfold norm_index.
  destruct (Z.leb_spec 0 (Z.of_nat k)); [|lia].
  destruct (Z.ltb_spec (Z.of_nat k) (Z.of_nat n)); [|lia].
  simpl. rewrite Nat2Z.id. reflexivity.
Qed.

Lemma norm_index_negative (n : nat) (i : Z) :
  - Z.of_nat n <= i < 0 -> norm_index n i = Some (Z.to_nat (Z.of_nat n + i)).
Proof.
  intros Hi. unfold norm_index.
  destruct (Z.leb_spec 0 i); [lia|]. simpl.
  destruct (Z.leb_spec (- Z.of_nat n) i); [|lia].
  destruct (Z.ltb_spec i 0); [|lia]. reflexivity.
Qed.

(** What a single-slot setter does to a three-slot lineage. *)
Lemma set_slot_spec (k : nat) (s : ChatSession) (v : pyval) :
  List.length (metadata s) = 3%nat -> (k < 3)%nat ->
  exists s',
    Session.set_slot (Z.of_nat k) s v = Ret s' /\
    metadata s' = <[k:=v]> (metadata s) /\
    list_getitem (metadata s') (Z.of_nat k) = Ret v /\
    (forall j, j <> k -> metadata s' !! j = metadata s !! j) /\
    last_output s' = last_output s /\ model s' = model s /\ gem s' = gem s.
Proof.
  intros Hl Hk. unfold Session.set_slot, list_setitem.
  rewrite norm_index_small by lia. simpl.
  eexists. split; [reflexivity|]. simpl.
  split; [reflexivity|]. split.
  - unfold list_getitem. rewrite length_insert, norm_index_small by lia.
    rewrite list_lookup_insert_eq by lia. reflexivity.
  - split; [|auto]. intros j Hj. apply list_lookup_insert_ne. congruence.
Qed.

(** C9.  On a session with its three slots: the bulk setter refuses more
    than 3 elements with [ValueError]; given [k <= 3] elements it writes
    them over slots [0..k-1] and leaves the slots from [k] on, and
    everything else in the session, as they were; each of the [cid], [rid],
    [rcid] setters writes its own slot (0, 1, 2) and no other, and the
    getter reads the value back. *)
Theorem lineage_setters (s : ChatSession) (value : list pyval) (v : pyval) :
  List.length (metadata s) = 3%nat ->
  ((3 < List.length value)%nat -> Session.set_metadata s value = Raise ValueError) /\
  ((List.length value <= 3)%nat ->
     exists s',
       Session.set_metadata s value = Ret s' /\
       List.length (metadata s') = 3%nat /\
       take (List.length value) (metadata s') = value /\
       (forall i, (i < List.length value)%nat -> metadata s' !! i = value !! i) /\
       (forall i, (List.length value <= i)%nat -> metadata s' !! i = metadata s !! i) /\
       last_output s' = last_output s /\ model s' = model s /\ gem s' = gem s) /\
  (exists s0 s1 s2,
     Session.set_cid s v = Ret s0 /\ Session.set_rid s v = Ret s1 /\
     Session.set_rcid s v = Ret s2 /\
     metadata s0 = <[0%nat:=v]> (metadata s) /\
     metadata s1 = <[1%nat:=v]> (metadata s) /\
     metadata s2 = <[2%nat:=v]> (metadata s) /\
     Session.cid s0 = Ret v /\ Session.rid s1 = Ret v /\ Session.rcid s2 = Ret v /\
     (forall j, j <> 0%nat -> metadata s0 !! j = metadata s !! j) /\
     (forall j, j <> 1%nat -> metadata s1 !! j = metadata s !! j) /\
     (forall j, j <> 2%nat -> metadata s2 !! j = metadata s !! j)).
Proof.
  intros Hl. split; [|split].
  - intros Hv. unfold Session.set_metadata.
    destruct (Z.ltb_spec 3 (Z.of_nat (List.length value))); [reflexivity|lia].
  - intros Hv. unfold Session.set_metadata.
    destruct (Z.ltb_spec 3 (Z.of_nat (List.length value))); [lia|].
    eexists. split; [reflexivity|]. simpl.
    split; [rewrite List.length_app, length_drop; lia|].
    split; [apply take_app_length|].
    split; [intros i Hi; apply lookup_app_l; exact Hi|].
    split; [|auto].
    intros i Hi. rewrite lookup_app_r by exact Hi.
    rewrite lookup_drop. f_equal. lia.
  - destruct (set_slot_spec 0 s v Hl) as (s0 & E0 & M0 & G0 & F0 & _); [lia|].
    destruct (set_slot_spec 1 s v Hl) as (s1 & E1 & M1 & G1 & F1 & _); [lia|].
    destruct (set_slot_spec 2 s v Hl) as (s2 & E2 & M2 & G2 & F2 & _); [lia|].
    exists s0, s1, s2. repeat split; assumption.
Qed.

Lemma lineage_setters_witness :
  exists s',
    Session.set_metadata
      (mkChatSession [VStr "c0"; VStr "r0"; VStr "rc0"] None
         (ModelMember "unspecified") None)
      [VStr "c1"; VStr "r1"] = Ret s' /\
    take 2 (metadata s') = [VStr "c1"; VStr "r1"] /\
    metadata s' !! 2%nat = Some (VStr "rc0").
Proof.
  destruct (proj1 (proj2 (lineage_setters
              (mkChatSession [VStr "c0"; VStr "r0"; VStr "rc0"] None
                 (ModelMember "unspecified") None)
              [VStr "c1"; VStr "r1"] VNone eq_refl)))
    as [s' [Hs [_ [Ht [_ [Hk _]]]]]].
  - simpl. lia.
  - exists s'. split; [exact Hs|]. split; [exact Ht|].
    exact (Hk 2%nat (le_n 2)).
Defined.

Lemma list_getitem_small {B : Type} (l : list B) (k : nat) (b : B) :
  l !! k = Some b -> list_getitem l (Z.of_nat k) = Ret b.
Proof.
  intros H. unfold list_getitem.
  rewrite norm_index_small by (eapply lookup_lt_Some; exact H).
  rewrite H. reflexivity.
Qed.

Lemma list_getitem_negative {B : Type} (l : list B) (i : Z) :
  - Z.of_nat (List.length l) <= i < 0 ->
  exists b, l !! Z.to_nat (Z.of_nat (List.length l) + i) = Some b /\
            list_getitem l i = Ret b.
Proof.
  intros Hi. unfold list_getitem. rewrite norm_index_negative by exact Hi.
  destruct (lookup_lt_is_Some_2 l (Z.to_nat (Z.of_nat (List.length l) + i)))
    as [b Hb]; [lia|].
  exists b. rewrite Hb. auto.
Qed.

(** Writing slot [k] of a three-slot list does not change what is read at
    another position [j]. *)
Lemma list_getitem_insert_other {B : Type} (l : list B) (k j : nat) (b : B) :
  List.length l = 3%nat -> (j < 3)%nat -> j <> k ->
  list_getitem (<[k:=b]> l) (Z.of_nat j) = list_getitem l (Z.of_nat j).
Proof.
  intros Hl Hj Hjk. unfold list_getitem.
  rewrite length_insert, norm_index_small by lia.
  rewrite list_lookup_insert_ne by congruence. reflexivity.
Qed.

(** The effect of [choose_candidate] once the bounds check has passed and
    [candidates[index]] is [cand]. *)
Lemma choose_candidate_chosen (s : ChatSession) (o : ModelOutput) (index : Z)
    (cand : Candidate) :
  List.length (metadata s) = 3%nat ->
  last_output s = Some o ->
  index < Z.of_nat (List.length (out_candidates o)) ->
  list_getitem (out_candidates o) index = Ret cand ->
  exists s',
    Session.choose_candidate s index
    = (Ret (mkModelOutput (out_metadata o) (out_candidates o) index), s') /\
    last_output s' = Some (mkModelOutput (out_metadata o) (out_candidates o) index) /\
    metadata s' = <[2%nat:=cand_rcid cand]> (metadata s) /\
    Session.rcid s' = Ret (cand_rcid cand) /\
    model s' = model s /\ gem s' = gem s.
Proof.
  intros Hl Ho Hi Hc. unfold Session.choose_candidate. rewrite Ho.
  destruct (Z.leb_spec (Z.of_nat (List.length (out_candidates o))) index); [lia|].
  unfold ModelOutput_rcid. cbn [out_candidates out_chosen]. rewrite Hc. cbn [bind].
  destruct (set_slot_spec 2 (with_last_output
              (mkModelOutput (out_metadata o) (out_candidates o) index) s)
              (cand_rcid cand)) as (s' & E & M & G & _ & L & Mo & Ge); [exact Hl|lia|].
  change (Session.set_rcid ?a ?b) with (Session.set_slot (Z.of_nat 2) a b).
  rewrite E. exists s'. repeat split; assumption.
Qed.

(** C8.  [choose_candidate(index)] raises [ValueError], and changes
    nothing, when the session has no last output or when [index] is at
    least the number of its candidates.  For [0 <= index < n] it returns
    the last output with [chosen = index], metadata and candidates as
    they were; that same output is the session's last output, and the
    session's [rcid] is the chosen candidate's; [cid] and [rid] keep their
    values. *)
Theorem choose_candidate_spec (s : ChatSession) (index : Z) :
  List.length (metadata s) = 3%nat ->
  (last_output s = None ->
     Session.choose_candidate s index = (Raise ValueError, s)) /\
  (forall o, last_output s = Some o ->
     Z.of_nat (List.length (out_candidates o)) <= index ->
     Session.choose_candidate s index = (Raise ValueError, s)) /\
  (forall o, last_output s = Some o ->
     0 <= index < Z.of_nat (List.length (out_candidates o)) ->
     exists s' cand,
       out_candidates o !! Z.to_nat index = Some cand /\
       Session.choose_candidate s index
       = (Ret (mkModelOutput (out_metadata o) (out_candidates o) index), s') /\
       last_output s' = Some (mkModelOutput (out_metadata o) (out_candidates o) index) /\
       Session.rcid s' = Ret (cand_rcid cand) /\
       Session.cid s' = Session.cid s /\ Session.rid s' = Session.rid s /\
       model s' = model s /\ gem s' = gem s).
Proof.
  intros Hl. split; [|split].
  - intros Ho. unfold Session.choose_candidate. rewrite Ho. reflexivity.
  - intros o Ho Hi. unfold Session.choose_candidate. rewrite Ho.
    destruct (Z.leb_spec (Z.of_nat (List.length (out_candidates o))) index);
      [reflexivity|lia].
  - intros o Ho Hi.
    destruct (lookup_lt_is_Some_2 (out_candidates o) (Z.to_nat index))
      as [cand Hc]; [lia|].
    pose proof (list_getitem_small _ _ _ Hc) as Hg.
    rewrite Z2Nat.id in Hg by lia.
    destruct (choose_candidate_chosen s o index cand Hl Ho (proj2 Hi) Hg)
      as (s' & E & L & M & R & Mo & Ge).
    exists s', cand. repeat split; try assumption.
    + unfold Session.cid. rewrite M.
      apply (list_getitem_insert_other (metadata s) 2 0); [exact Hl|lia|lia].
    + unfold Session.rid. rewrite M.
      apply (list_getitem_insert_other (metadata s) 2 1); [exact Hl|lia|lia].
Qed.

(** C10.  With [n >= 1] candidates and [-n <= i < 0] the bounds check lets
    [i] through: [chosen] becomes the negative [i], and the session's
    [rcid] is taken from the candidate at position [n + i]. *)
Theorem choose_candidate_negative_index (s : ChatSession) (o : ModelOutput)
    (i : Z) :
  List.length (metadata s) = 3%nat ->
  last_output s = Some o ->
  (1 <= List.length (out_candidates o))%nat ->
  - Z.of_nat (List.length (out_candidates o)) <= i < 0 ->
  exists s' cand,
    out_candidates o !! Z.to_nat (Z.of_nat (List.length (out_candidates o)) + i)
    = Some cand /\
    Session.choose_candidate s i
    = (Ret (mkModelOutput (out_metadata o) (out_candidates o) i), s') /\
    out_chosen (mkModelOutput (out_metadata o) (out_candidates o) i) = i /\
    last_output s' = Some (mkModelOutput (out_metadata o) (out_candidates o) i) /\
    Session.rcid s' = Ret (cand_rcid cand).
Proof.
  intros Hl Ho Hn Hi.
  destruct (list_getitem_negative (out_candidates o) i Hi) as (cand & Hc & Hg).
  destruct (choose_candidate_chosen s o i cand Hl Ho) as (s' & E & L & M & R & _);
    [lia|exact Hg|].
  exists s', cand. repeat split; assumption.
Qed.

Lemma choose_candidate_spec_witness :
  exists s',
    Session.choose_candidate Sample.session_after_turn 1
    = (Ret (mkModelOutput [VStr "c_1"; VStr "r_1"]
              [Sample.candidate_a; Sample.candidate_b] 1), s') /\
    Session.rcid s' = Ret (VStr "rc_b").
Proof.
  destruct (proj2 (proj2 (choose_candidate_spec Sample.session_after_turn 1 eq_refl))
              Sample.two_candidates eq_refl)
    as [s' [cand [Hc [E [_ [R _]]]]]].
  - simpl. lia.
  - exists s'. split; [exact E|].
    injection Hc as <-. exact R.
Defined.

Example choose_candidate_out_of_range :
  Session.choose_candidate Sample.session_after_turn 2
  = (Raise ValueError, Sample.session_after_turn).
Proof. reflexivity. Qed.

Lemma choose_candidate_negative_index_witness :
  exists s',
    Session.choose_candidate Sample.session_after_turn (-1)
    = (Ret (mkModelOutput [VStr "c_1"; VStr "r_1"]
              [Sample.candidate_a; Sample.candidate_b] (-1)), s') /\
    Session.rcid s' = Ret (VStr "rc_b").
Proof.
  destruct (choose_candidate_negative_index Sample.session_after_turn
              Sample.two_candidates (-1) eq_refl eq_refl)
    as [s' [cand [Hc [E [_ [_ R]]]]]].
  - simpl. lia.
  - simpl. lia.
  - exists s'. split; [exact E|].
    injection Hc as <-. exact R.
Defined.

Example choose_candidate_below_range :
  fst (Session.choose_candidate Sample.session_after_turn (-3)) = Raise IndexError.
Proof. reflexivity. Qed.

(** ** A status other than 200 *)

(** [generate_content] closes the client and raises [APIError]. *)
Lemma generate_content_non200 (ext : Externals) (prompt : string)
    (files : option (list string)) (m : model_arg) (g : option gem_arg)
    (c : GeminiClient) (w : World) (chat : option ChatSession)
    (name : string) (envelope : list pyval) (response : Response) :
  String.length prompt <> 0%nat ->
  resolve_model ext m = Ret name ->
  turn_envelope ext prompt files g chat = Ret envelope ->
  let c1 := if auto_close c then reset_close_task c else c in
  post w (posts_done w) (generate_request ext c1 envelope) = Ret response ->
  status_code response <> 200 ->
  exists c' w',
    generate_content ext prompt files m g c (w, chat)
    = (Raise APIError, c', (w', chat)) /\
    c' = close c1 /\ running c' = false /\ posts_done w' = S (posts_done w).
Proof.
  intros Hp Hm He c1 Hpost Hs. unfold generate_content.
  destruct (Nat.eqb_spec (String.length prompt) 0); [contradiction|].
  rewrite Hm, He. fold c1. unfold do_post. rewrite Hpost.
  destruct (Z.eqb_spec (status_code response) 200); [contradiction|].
  simpl. eexists _, _. repeat split.
Qed.

(** [fetch_gems] raises [APIError] and leaves the client as it was. *)
Lemma fetch_gems_non200 (ext : Externals) (c : GeminiClient) (w : World)
    (response : Response) :
  post w (posts_done w) (fetch_gems_request ext c) = Ret response ->
  status_code response <> 200 ->
  exists w',
    fetch_gems ext c w = (Raise APIError, c, w') /\
    posts_done w' = S (posts_done w).
Proof.
  intros Hpost Hs. unfold fetch_gems, do_post. rewrite Hpost.
  destruct (Z.eqb_spec (status_code response) 200); [contradiction|].
  simpl. eexists. split; reflexivity.
Qed.

(** C7 fails for [fetch_gems].  On a running client and a service that
    answers 500, [fetch_gems] raises [APIError] without closing: the client
    is still running, and the decorated call spends its two retries without
    initialising again.  [generate_content], on the same client and
    service, does close. *)
Theorem fetch_gems_non200_not_closed :
  let w := Sample.world Sample.good_handshake (Ret (mkResponse 500 "")) in
  fst (fetch_gems Sample.ext Sample.running_client w)
    = (Raise APIError, Sample.running_client) /\
  running (snd (fst (fetch_gems Sample.ext Sample.running_client w))) = true /\
  option_map trace
    (GeminiClient_fetch_gems Sample.ext default_retry Sample.running_client w)
    = Some [ECall; ESleep; ECall; ESleep; ECall] /\
  fst (fst (generate_content Sample.ext "hi" None (ModelMember "unspecified") None
              Sample.running_client (w, None))) = Raise APIError /\
  running (snd (fst (generate_content Sample.ext "hi" None
                       (ModelMember "unspecified") None
                       Sample.running_client (w, None)))) = false /\
  option_map trace
    (GeminiClient_generate_content Sample.ext "hi" None (ModelMember "unspecified")
       None default_retry Sample.running_client (w, None))
    = Some [ECall; ESleep; EInit; ECall; ESleep; EInit; ECall].
Proof. repeat split. Qed.

(** ** Structural failure and its classification *)

Lemma find_body_none (ext : Externals) (parts : list pyval) :
  Forall (fun part => try_part ext part = Ret None) parts ->
  forall i, find_body ext parts i = Ret None.
Proof.
  induction 1 as [|part rest Hp _ IH]; intros i; simpl; [reflexivity|].
  rewrite Hp. simpl. apply IH.
Qed.

(** Any exception in the search block closes the client and leaves the
    choice of the exception to [classify]. *)
Lemma parse_response_failure (ext : Externals) (c : GeminiClient)
    (chat : option ChatSession) (t : string) (e : exn) :
  snd (locate_body ext t) = Raise e ->
  parse_response ext c chat t
  = (Raise (classify ext (fst (locate_body ext t))), close c, chat).
Proof.
  unfold parse_response. destruct (locate_body ext t) as [rj r]. simpl.
  intros ->. destruct rj; reflexivity.
Qed.

Lemma list_getitem_raises {B : Type} (l : list B) (i : Z) (e : exn) :
  list_getitem l i = Raise e -> e = IndexError.
Proof.
  unfold list_getitem.
  destruct (norm_index _ i); [destruct (l !! _)|]; congruence.
Qed.

Lemma getitem_raises (v : pyval) (i : Z) (e : exn) :
  getitem v i = Raise e -> e = IndexError \/ e = TypeError \/ e = KeyError.
Proof.
  destruct v; simpl; intros H;
    first [left; exact (list_getitem_raises _ _ _ H) | injection H as <-; auto].
Qed.

Lemma getpath_raises (path : list Z) :
  forall (v : pyval) (e : exn),
    getpath v path = Raise e -> e = IndexError \/ e = TypeError \/ e = KeyError.
Proof.
  induction path as [|i path IH]; intros v e H; simpl in H; [discriminate|].
  destruct (getitem v i) as [x|e'] eqn:E; simpl in H.
  - exact (IH _ _ H).
  - injection H as <-. exact (getitem_raises _ _ _ E).
Qed.

(** C6.  When the third line decodes to an array of which no part yields a
    body, the client is closed and the exception is chosen by the value at
    [[0][5][2][0][1][0]] of that array: [TemporarilyBlocked] for
    [IP_TEMPORARILY_BLOCKED], [UsageLimitExceeded] and [ModelInvalid] for
    the other two members, [APIError] for a value of no member and when
    the position cannot be read.  [TemporarilyBlocked] is not an
    [APIError]. *)
Theorem structural_failure_classification (ext : Externals) (c : GeminiClient)
    (chat : option ChatSession) (t : string) (parts : list pyval) :
  third_line ext t = Ret (VList parts) ->
  Forall (fun part => try_part ext part = Ret None) parts ->
  exists e,
    parse_response ext c chat t = (Raise e, close c, chat) /\
    running (close c) = false /\
    (forall code, getpath (VList parts) error_code_path = Ret code ->
       match ErrorCode_of_value ext code with
       | Some IP_TEMPORARILY_BLOCKED => e = TemporarilyBlocked
       | Some USAGE_LIMIT_EXCEEDED => e = UsageLimitExceeded
       | Some MODEL_HEADER_INVALID => e = ModelInvalid
       | None => e = APIError
       end) /\
    (forall e0, getpath (VList parts) error_code_path = Raise e0 -> e = APIError) /\
    isinstance TemporarilyBlocked APIError = false.
Proof.
  intros Hl Hparts.
  assert (Hloc : locate_body ext t = (Some (VList parts), Raise PyException)).
  { unfold locate_body. rewrite Hl. simpl.
    rewrite (find_body_none ext parts Hparts). reflexivity. }
  exists (classify ext (Some (VList parts))).
  split.
  { rewrite (parse_response_failure ext c chat t PyException) by (rewrite Hloc; reflexivity).
    rewrite Hloc. reflexivity. }
  split; [reflexivity|].
  split; [|split; [|reflexivity]].
  - intros code Hcode. unfold classify. cbn [bind]. rewrite Hcode. cbn [bind].
    destruct (ErrorCode_of_value ext code) as [[| |]|]; reflexivity.
  - intros e0 He0. unfold classify. cbn [bind]. rewrite He0. cbn [bind].
    destruct (getpath_raises _ _ _ He0) as [->|[->| ->]]; reflexivity.
Qed.

Lemma structural_failure_classification_witness :
  parse_response Sample.blocked_ext Sample.running_client None Sample.blocked_text
  = (Raise TemporarilyBlocked, close Sample.running_client, None).
Proof.
  destruct (structural_failure_classification Sample.blocked_ext
              Sample.running_client None Sample.blocked_text
              [VList [VNone; VNone; VNone; VNone; VNone;
                      VList [VInt 7; VNone;
                             VList [VList [VNone; VList [VInt 1060]]]]]]
              eq_refl)
    as [e [Hp [_ [Hc _]]]].
  - repeat constructor.
  - rewrite Hp. rewrite (Hc (VInt 1060) eq_refl). reflexivity.
Defined.

(** The whole call on that response. *)
Example generate_content_blocked :
  fst (generate_content Sample.blocked_ext "hi" None (ModelMember "unspecified") None
         Sample.running_client
         (Sample.world Sample.good_handshake
            (Ret (mkResponse 200 Sample.blocked_text)), None))
  = (Raise TemporarilyBlocked, close Sample.running_client).
Proof. reflexivity. Qed.

(** A code of no member, and an array with nothing at the position. *)
Example generate_content_unclassified :
  fst (fst (parse_response
              (Sample.ext_of [("[[7]]", VList [VList [VInt 7]])])
              Sample.running_client None (")]}'" ++ Sample.nl ++ Sample.nl ++ "[[7]]")))
  = Raise APIError.
Proof. reflexivity. Qed.

(** ** The scan for generated images *)

(** The scan with [body_index] is the scan, from the start, of the parts
    from [body_index] on. *)
Lemma find_img_body_drop (ext : Externals) (body_index candidate_index : nat)
    (parts : list pyval) :
  forall i j,
    find_img_body ext body_index candidate_index parts i
    = find_img_body ext 0 candidate_index (drop (body_index - i) parts) j.
Proof.
  induction parts as [|part rest IH]; intros i j.
  - rewrite drop_nil. reflexivity.
  - simpl. destruct (Nat.ltb_spec i body_index) as [Hlt|Hge].
    + rewrite (IH (S i) j).
      replace (body_index - i)%nat with (S (body_index - S i)) by lia.
      reflexivity.
    + replace (body_index - i)%nat with 0%nat by lia. simpl.
      destruct (try_img_part ext candidate_index part) as [[b|]|e]; simpl;
        try reflexivity.
      rewrite (IH (S i) (S j)).
      replace (body_index - S i)%nat with 0%nat by lia. reflexivity.
Qed.




(** *** Inside [generate_content] the scan stops at the body itself

    The candidate comes from [body[4]] of the part at [body_index], and
    the scan starts with that part: its marker is the one just tested. *)

Lemma find_body_found (ext : Externals) (parts : list pyval) :
  forall i body_index body,
    find_body ext parts i = Ret (Some (body_index, body)) ->
    exists part,
      (i <= body_index)%nat /\ parts !! (body_index - i)%nat = Some part /\
      try_part ext part = Ret (Some body).
Proof.
  induction parts as [|part rest IH]; intros i bi body H; simpl in H; [discriminate|].
  destruct (try_part ext part) as [[mp|]|e] eqn:E; simpl in H; [| |discriminate].
  - injection H as <- <-. exists part. rewrite Nat.sub_diag. auto.
  - destruct (IH _ _ _ H) as (p & Hle & Hp & Ht).
    exists p. split; [lia|]. split; [|exact Ht].
    replace (bi - i)%nat with (S (bi - S i)) by lia. exact Hp.
Qed.

Lemma try_part_some (ext : Externals) (part body : pyval) :
  try_part ext part = Ret (Some body) ->
  exists x y, getitem part 2 = Ret x /\ json_loads ext x = Ret body /\
              getitem body 4 = Ret y /\ truthy y = true.
Proof.
  unfold try_part, try_except. intros H.
  destruct (getitem part 2) as [x|e1] eqn:E2; cbn [bind] in H.
  2:{ destruct (isinstance_any e1 _); discriminate. }
  destruct (json_loads ext x) as [mp|e2] eqn:El; cbn [bind] in H.
  2:{ destruct (isinstance_any e2 _); discriminate. }
  destruct (getitem mp 4) as [y|e3] eqn:E4; cbn [bind] in H.
  2:{ destruct (isinstance_any e3 _); discriminate. }
  destruct (truthy y) eqn:Ty; [|discriminate].
  injection H as <-. exists x, y. auto.
Qed.

Lemma marker_present (candidate : pyval) :
  has_generated_images candidate = Ret true ->
  exists m, getpath candidate [12; 7; 0] = Ret m /\ truthy m = true.
Proof.
  unfold has_generated_images, py_and. simpl. intros H.
  destruct (getitem candidate 12) as [c12|e]; cbn [bind] in *; [|discriminate].
  destruct (truthy c12) eqn:T12; cbn [bind] in H; [|congruence].
  destruct (getitem c12 7) as [c127|e]; cbn [bind] in *; [|discriminate].
  destruct (truthy c127) eqn:T127; cbn [bind] in H; [|congruence].
  destruct (getitem c127 0) as [m|e]; cbn [bind] in *; [|discriminate].
  exists m. split; [reflexivity|]. congruence.
Qed.

(** A string has no marker: its item 12, if any, is one character. *)
Lemma string_has_no_marker (s : string) :
  has_generated_images (VStr s) <> Ret true.
Proof.
  intros H. destruct (marker_present _ H) as (m & Hm & _).
  simpl in Hm. unfold list_getitem in Hm at 1.
  destruct (norm_index _ 12) as [k|]; [|discriminate].
  unfold chars in Hm at 1. rewrite list_lookup_fmap in Hm.
  destruct (list_ascii_of_string s !! k) as [a|]; simpl in Hm; discriminate.
Qed.

Lemma candidate_of_body (b4 : pyval) (items : list pyval) (ci : nat)
    (candidate : pyval) :
  iterate b4 = Ret items ->
  items !! ci = Some candidate ->
  has_generated_images candidate = Ret true ->
  getitem b4 (Z.of_nat ci) = Ret candidate.
Proof.
  intros Hit Hc Hm.
  destruct b4 as [| | | |s|l|d]; simpl in Hit; try discriminate;
    injection Hit as <-.
  - unfold chars in Hc. rewrite list_lookup_fmap in Hc.
    destruct (list_ascii_of_string s !! ci); simpl in Hc; [|discriminate].
    injection Hc as <-. destruct (string_has_no_marker _ Hm).
  - simpl. apply list_getitem_small. exact Hc.
  - rewrite list_lookup_fmap in Hc.
    destruct (d !! ci); simpl in Hc; [|discriminate].
    injection Hc as <-. destruct (string_has_no_marker _ Hm).
Qed.

(** Whenever [generate_content] gets to the scan, the scan returns the body
    it started from: the raise of [ImageGenerationError] that follows the
    scan is not reached from there. *)
Remark scan_finds_body (ext : Externals) (response_json : pyval)
    (parts : list pyval) (body_index : nat) (body b4 : pyval)
    (items : list pyval) (candidate_index : nat) (candidate : pyval) :
  iterate response_json = Ret parts ->
  find_body ext parts 0 = Ret (Some (body_index, body)) ->
  getitem body 4 = Ret b4 ->
  iterate b4 = Ret items ->
  items !! candidate_index = Some candidate ->
  has_generated_images candidate = Ret true ->
  find_img_body ext body_index candidate_index parts 0 = Ret (Some body) /\
  truthy body = true.
Proof.
  intros _ Hfind Hb4 Hit Hc Hm.
  destruct (find_body_found _ _ _ _ _ Hfind) as (part & _ & Hp & Ht).
  rewrite Nat.sub_0_r in Hp.
  destruct (try_part_some _ _ _ Ht) as (x & y & Hx & Hl & Hy & Ty).
  destruct (marker_present _ Hm) as (m & Hpath & Tm).
  pose proof (candidate_of_body _ _ _ _ Hit Hc Hm) as Hcand.
  split.
  - rewrite (find_img_body_drop ext body_index candidate_index parts 0 0).
    rewrite Nat.sub_0_r.
    destruct (drop body_index parts) as [|p rest] eqn:Ed.
    { apply (f_equal (fun l => l !! 0%nat)) in Ed.
      rewrite lookup_drop, Nat.add_0_r, Hp in Ed. discriminate. }
    assert (p = part) as ->.
    { apply (f_equal (fun l => l !! 0%nat)) in Ed.
      rewrite lookup_drop, Nat.add_0_r, Hp in Ed. simpl in Ed. congruence. }
    cbn [find_img_body Nat.ltb Nat.leb].
    unfold try_img_part, try_except. rewrite Hx. cbn [bind]. rewrite Hl. cbn [bind].
    cbn [getpath]. rewrite Hb4. cbn [bind]. rewrite Hcand. cbn [bind].
    cbn [getpath] in Hpath. rewrite Hpath. cbn [bind]. rewrite Tm. reflexivity.
  - destruct body as [| | | |s|l|d]; simpl in Hb4; try discriminate.
    + unfold list_getitem in Hb4. destruct s; [discriminate|reflexivity].
    + unfold list_getitem in Hb4. destruct l; [discriminate|reflexivity].
Qed.

(** * Further properties of the code *)

(** ** Initialisation *)

Lemma init_world (c : GeminiClient) (w : World) :
  handshakes_done (snd (init c w)) = S (handshakes_done w) /\
  posts_done (snd (init c w)) = posts_done w.
Proof.
  unfold init, do_handshake.
  destruct (handshake w (handshakes_done w)) as [[token vc]|e]; [|auto].
  match goal with |- context [match ?m with Some _ => _ | None => _ end] =>
    destruct m end; auto.
Qed.


(** The [init] of the decorator is [GeminiClient.init] at the client's own
    settings. *)
Lemma init_is_init_with (c : GeminiClient) (w : World) :
  init c w = init_with (auto_close c) (auto_refresh c) c w.
Proof. reflexivity. Qed.

(** [GeminiClient.init], whatever [auto_close] and [auto_refresh] it is
    given, returns exactly when it leaves the client running.  On success
    the token and the cookies of the handshake are installed, [auto_close]
    and [auto_refresh] are the arguments, and the close task is scheduled
    if the argument [auto_close] is set and left as it was otherwise.  On
    any exception the client is closed and has no close task; a failed
    handshake is re-raised as it is and leaves cookies, [auto_close] and
    [auto_refresh] as they were.  One handshake is made either way, no
    POST, and the gem cache is not touched. *)
Theorem init_with_running_iff_success (auto_close0 auto_refresh0 : bool)
    (c : GeminiClient) (w : World) :
  let r := fst (fst (init_with auto_close0 auto_refresh0 c w)) in
  let c' := snd (fst (init_with auto_close0 auto_refresh0 c w)) in
  let w' := snd (init_with auto_close0 auto_refresh0 c w) in
  (running c' = true <-> r = Ret tt) /\
  (forall e, r = Raise e -> running c' = false /\ close_task c' = false) /\
  (r = Ret tt ->
     exists token valid_cookies,
       handshake w (handshakes_done w) = Ret (token, valid_cookies) /\
       access_token c' = Some token /\ cookies c' = valid_cookies /\
       client c' = true /\
       auto_close c' = auto_close0 /\ auto_refresh c' = auto_refresh0 /\
       close_task c' = (auto_close0 || close_task c)) /\
  (forall e, handshake w (handshakes_done w) = Raise e ->
     r = Raise e /\ cookies c' = cookies c /\
     auto_close c' = auto_close c /\ auto_refresh c' = auto_refresh c) /\
  handshakes_done w' = S (handshakes_done w) /\
  posts_done w' = posts_done w /\
  _gems c' = _gems c.
Proof.
  unfold init_with, do_handshake.
  destruct (handshake w (handshakes_done w)) as [[token vc]|e] eqn:Eh; cbn -[assoc_get].
  - destruct auto_close0; cbn -[assoc_get];
      destruct (assoc_get "__Secure-1PSID" vc) as [v|] eqn:Ec; cbn;
      repeat split; try discriminate; try (intros ? [=]; subst; auto);
      try (intros _; exists token, vc; repeat split; auto); auto.
  - repeat split; try discriminate; try (intros ? [=]; subst; auto); auto;
      congruence.
Qed.

Section RunningMore.
Context {X A : Type}.
Variable client_init : GeminiClient -> X -> result unit * GeminiClient * X.

Lemma attempt_ext (f1 f2 : GeminiClient -> X -> result A * GeminiClient * X) :
  (forall c x, running c = true -> f1 c x = f2 c x) ->
  forall c x, attempt client_init f1 c x = attempt client_init f2 c x.
Proof.
  intros H c x. unfold attempt.
  destruct (running c) eqn:Ec; simpl.
  - rewrite (H c x Ec). reflexivity.
  - destruct (client_init c x) as [[r c1] x1]. destruct r; [|reflexivity].
    destruct (running c1) eqn:E1; [|reflexivity].
    rewrite (H c1 x1 E1). reflexivity.
Qed.

(** The wrapped function is only ever called on a running client: two
    functions that agree on running clients give the same wrapped call,
    whatever they do on a client that is not running. *)
Theorem wrapper_calls_only_when_running
    (f1 f2 : GeminiClient -> X -> result A * GeminiClient * X) :
  (forall c x, running c = true -> f1 c x = f2 c x) ->
  forall retry c x, wrapper client_init f1 retry c x = wrapper client_init f2 retry c x.
Proof.
  intros H retry c x. unfold wrapper.
  generalize (S (Z.to_nat retry)) as n. intros n. revert retry c x.
  induction n as [|n IH]; intros retry c x; [reflexivity|].
  simpl. rewrite (attempt_ext f1 f2 H c x).
  destruct (outcome (attempt client_init f2 c x)) as [a|e]; [reflexivity|].
  destruct (isinstance e APIError); [|reflexivity].
  destruct (Z.ltb 0 (budget_after e retry)); [|reflexivity].
  rewrite IH. reflexivity.
Qed.

Variable func : GeminiClient -> X -> result A * GeminiClient * X.

Lemma attempt_counts (c : GeminiClient) (x : X) :
  (count_event EInit (trace (attempt client_init func c x)) <= 1)%nat /\
  (count_event ECall (trace (attempt client_init func c x)) <= 1)%nat /\
  count_event ESleep (trace (attempt client_init func c x)) = 0%nat.
Proof.
  unfold attempt. destruct (running c); simpl.
  - destruct (func c x) as [[r c1] x1]. cbv. auto.
  - destruct (client_init c x) as [[r c1] x1]. destruct r; [|cbv; auto].
    destruct (running c1); [|cbv; auto].
    destruct (func c1 x1) as [[r2 c2] x2]. cbv. auto.
Qed.

Lemma wrapper_fuel_counts (n : nat) :
  forall (retry : Z) (c : GeminiClient) (x : X) (r : run),
    wrapper_fuel client_init func n retry c x = Some r ->
    (count_event ESleep (trace r) <= Z.to_nat retry)%nat /\
    (count_event ECall (trace r) <= S (Z.to_nat retry))%nat /\
    (count_event EInit (trace r) <= S (Z.to_nat retry))%nat.
Proof.
  induction n as [|n IH]; intros retry c x r H; [discriminate|].
  simpl in H.
  destruct (attempt_counts c x) as (Hi & Hc & Hs).
  destruct (outcome (attempt client_init func c x)) as [a|e].
  { inversion H; subst. lia. }
  destruct (isinstance e APIError).
  2:{ inversion H; subst. lia. }
  destruct (Z.ltb 0 (budget_after e retry)) eqn:Hb.
  2:{ inversion H; subst. lia. }
  apply Z.ltb_lt in Hb.
  pose proof (budget_after_le e retry) as Hbl.
  destruct (wrapper_fuel client_init func n _ _ _) as [r'|] eqn:Hr; [|discriminate].
  inversion H; subst. cbn [trace].
  destruct (IH _ _ _ _ Hr) as (IHs & IHc & IHi).
  rewrite !count_event_app.
  change (count_event ESleep (ESleep :: trace r')) with (S (count_event ESleep (trace r'))).
  change (count_event ECall (ESleep :: trace r')) with (count_event ECall (trace r')).
  change (count_event EInit (ESleep :: trace r')) with (count_event EInit (trace r')).
  lia.
Qed.

(** A wrapped call with budget [retry] sleeps at most [retry] times
    (never, for a budget of 0 or less) and so makes at most [retry + 1]
    attempts; it does not sleep at all when the first attempt returns or
    fails with an exception that is not an [APIError]. *)
Theorem wrapper_retry_bounds (retry : Z) (c : GeminiClient) (x : X) :
  exists r,
    wrapper client_init func retry c x = Some r /\
    (count_event ESleep (trace r) <= Z.to_nat retry)%nat /\
    (count_event ECall (trace r) <= S (Z.to_nat retry))%nat /\
    (count_event EInit (trace r) <= S (Z.to_nat retry))%nat /\
    ((forall e, outcome (attempt client_init func c x) = Raise e ->
                isinstance e APIError = false) ->
     r = attempt client_init func c x).
Proof.
  destruct (wrapper_total client_init func retry c x) as [r Hr].
  exists r. split; [exact Hr|].
  destruct (wrapper_fuel_counts _ _ _ _ _ Hr) as (Hs & Hc & Hi).
  repeat split; try assumption.
  intros Hne. rewrite wrapper_unfold in Hr. cbv zeta in Hr.
  destruct (outcome (attempt client_init func c x)) as [a|e] eqn:Eo.
  - congruence.
  - rewrite (Hne e eq_refl) in Hr. congruence.
Qed.

(** How far a counter of the outside state can move during a wrapped
    call, when one initialisation moves it by at most [ki] and one call of
    the function by at most [kf]. *)
Lemma wrapper_fuel_measure (mu : X -> nat) (ki kf : nat) :
  (forall c x, (mu (snd (client_init c x)) <= mu x + ki)%nat) ->
  (forall c x, (mu (snd (func c x)) <= mu x + kf)%nat) ->
  forall (n : nat) (retry : Z) (c : GeminiClient) (x : X) (r : run),
    wrapper_fuel client_init func n retry c x = Some r ->
    (mu (final_rest r) <= mu x + ki * count_event EInit (trace r)
                          + kf * count_event ECall (trace r))%nat.
Proof.
  intros Hi Hf.
  assert (Ha : forall c x,
             (mu (final_rest (attempt client_init func c x))
              <= mu x + ki * count_event EInit (trace (attempt client_init func c x))
                 + kf * count_event ECall (trace (attempt client_init func c x)))%nat).
  { intros c x. unfold attempt. destruct (running c); simpl.
    - pose proof (Hf c x). destruct (func c x) as [[r c1] x1].
      simpl in *. change (count_event EInit [ECall]) with 0%nat.
      change (count_event ECall [ECall]) with 1%nat. lia.
    - pose proof (Hi c x) as H1. destruct (client_init c x) as [[r c1] x1].
      simpl in H1.
      destruct r; [|simpl; change (count_event EInit [EInit]) with 1%nat;
                    change (count_event ECall [EInit]) with 0%nat; lia].
      destruct (running c1);
        [|simpl; change (count_event EInit [EInit]) with 1%nat;
          change (count_event ECall [EInit]) with 0%nat; lia].
      pose proof (Hf c1 x1) as H2. destruct (func c1 x1) as [[r2 c2] x2].
      simpl in *. change (count_event EInit [EInit; ECall]) with 1%nat.
      change (count_event ECall [EInit; ECall]) with 1%nat. lia. }
  induction n as [|n IH]; intros retry c x r H; [discriminate|].
  simpl in H. specialize (Ha c x).
  destruct (outcome (attempt client_init func c x)) as [a|e].
  { inversion H; subst. exact Ha. }
  destruct (isinstance e APIError).
  2:{ inversion H; subst. exact Ha. }
  destruct (Z.ltb 0 (budget_after e retry)).
  2:{ inversion H; subst. exact Ha. }
  destruct (wrapper_fuel client_init func n _ _ _) as [r'|] eqn:Hr; [|discriminate].
  inversion H; subst. cbn [trace final_rest].
  specialize (IH _ _ _ _ Hr).
  rewrite !count_event_app.
  change (count_event ECall (ESleep :: trace r')) with (count_event ECall (trace r')).
  change (count_event EInit (ESleep :: trace r')) with (count_event EInit (trace r')).
  nia.
Qed.

End RunningMore.

Lemma wrapper_calls_only_when_running_witness :
  wrapper init (fun c w => if running c then Sample.always_raises APIError c w
                           else (Ret tt, c, w))
    1 Sample.fresh_client (Sample.world Sample.good_handshake (Raise ReadTimeout))
  = wrapper init (Sample.always_raises APIError)
      1 Sample.fresh_client (Sample.world Sample.good_handshake (Raise ReadTimeout)).
Proof.
  apply wrapper_calls_only_when_running.
  intros c x Hc. rewrite Hc. reflexivity.
Defined.



(** ** Use of the network *)

Lemma fetch_gems_world (ext : Externals) (c : GeminiClient) (w : World) :
  snd (fetch_gems ext c w) = snd (do_post w (fetch_gems_request ext c)).
Proof.
  unfold fetch_gems, do_post.
  destruct (post w (posts_done w) (fetch_gems_request ext c)) as [resp|e];
    [|reflexivity].
  destruct (negb (Z.eqb (status_code resp) 200)); [reflexivity|].
  destruct (locate_gems ext (text resp)) as [[p cu]|e]; [|reflexivity].
  match goal with |- snd (match ?m with _ => _ end) = _ => destruct m end;
    reflexivity.
Qed.

(** [generate_content] makes exactly one POST when the prompt is not empty,
    the model resolves and all uploads succeed, and none otherwise; in the
    latter case it raises, the session is as it was, and the client is
    still running if it was. *)
Theorem generate_content_posts_once (ext : Externals) (prompt : string)
    (files : option (list string)) (m : model_arg) (g : option gem_arg)
    (c : GeminiClient) (w : World) (chat : option ChatSession) :
  let res := generate_content ext prompt files m g c (w, chat) in
  handshakes_done (fst (snd res)) = handshakes_done w /\
  (sends ext prompt files m g chat = true ->
     posts_done (fst (snd res)) = S (posts_done w)) /\
  (sends ext prompt files m g chat = false ->
     snd res = (w, chat) /\
     running (snd (fst res)) = running c /\
     (exists e, fst (fst res) = Raise e) /\
     (String.length prompt = 0%nat ->
        fst (fst res) = Raise AssertionError /\ snd (fst res) = c)).
Proof.
  unfold sends, generate_content. cbv zeta.
  destruct (Nat.eqb_spec (String.length prompt) 0) as [Hp|Hp]; cbn [negb andb].
  { repeat split; try discriminate; eauto. }
  destruct (resolve_model ext m) as [name|e1].
  2:{ repeat split; try discriminate; eauto. contradiction. }
  destruct (turn_envelope ext prompt files g chat) as [env|e2].
  2:{ repeat split; try discriminate; eauto; try contradiction.
      destruct (auto_close c); reflexivity. }
  unfold do_post.
  destruct (post w (posts_done w) _) as [resp|e3].
  2:{ repeat split; discriminate. }
  destruct (negb (Z.eqb (status_code resp) 200)).
  { repeat split; discriminate. }
  destruct (parse_response ext _ chat (text resp)) as [[out c2] chat'].
  repeat split; discriminate.
Qed.

Lemma generate_content_posts_at_most_once (ext : Externals) (prompt : string)
    (files : option (list string)) (m : model_arg) (g : option gem_arg)
    (c : GeminiClient) (st : Rest) :
  (posts_done (fst (snd (generate_content ext prompt files m g c st)))
   <= posts_done (fst st) + 1)%nat /\
  handshakes_done (fst (snd (generate_content ext prompt files m g c st)))
  = handshakes_done (fst st).
Proof.
  destruct st as [w chat]. unfold generate_content.
  destruct (Nat.eqb (String.length prompt) 0); [cbn; lia|].
  destruct (resolve_model ext m) as [name|e1]; [|cbn; lia].
  destruct (turn_envelope ext prompt files g chat) as [env|e2]; [|cbn; lia].
  unfold do_post. destruct (post w (posts_done w) _) as [resp|e3]; [|cbn; lia].
  destruct (negb (Z.eqb (status_code resp) 200)); [cbn; lia|].
  destruct (parse_response ext _ chat (text resp)) as [[out c2] chat'].
  cbn. lia.
Qed.

(** A decorated call with budget [retry] makes at most [retry + 1] POSTs
    and at most [retry + 1] handshakes, for [generate_content] and for
    [fetch_gems]. *)
Theorem wrapped_calls_network_bound (ext : Externals) (prompt : string)
    (files : option (list string)) (m : model_arg) (g : option gem_arg)
    (retry : Z) (c : GeminiClient) (w : World) (chat : option ChatSession) :
  (exists r,
     GeminiClient_generate_content ext prompt files m g retry c (w, chat) = Some r /\
     (posts_done (fst (final_rest r)) <= posts_done w + S (Z.to_nat retry))%nat /\
     (handshakes_done (fst (final_rest r))
      <= handshakes_done w + S (Z.to_nat retry))%nat) /\
  (exists r,
     GeminiClient_fetch_gems ext retry c w = Some r /\
     (posts_done (final_rest r) <= posts_done w + S (Z.to_nat retry))%nat /\
     (handshakes_done (final_rest r) <= handshakes_done w + S (Z.to_nat retry))%nat).
Proof.
  assert (Hip : forall c0 (st : Rest),
            posts_done (fst (snd (lift_init c0 st))) = posts_done (fst st) /\
            handshakes_done (fst (snd (lift_init c0 st)))
            = S (handshakes_done (fst st))).
  { intros c0 [w0 ch0]. unfold lift_init. cbn [fst snd].
    destruct (init_world c0 w0) as [Hh Hp].
    destruct (init c0 w0) as [[r0 c1] w1]. auto. }
  split.
  - unfold GeminiClient_generate_content.
    destruct (wrapper_total lift_init (generate_content ext prompt files m g)
                retry c (w, chat)) as [r Hr].
    exists r. split; [exact Hr|].
    destruct (wrapper_fuel_counts _ _ _ _ _ _ _ Hr) as (_ & Hc & Hi).
    split.
    + pose proof (wrapper_fuel_measure lift_init (generate_content ext prompt files m g)
                    (fun st => posts_done (fst st)) 0 1) as Hm.
      cbv beta in Hm.
      assert (H1 : forall c0 (st : Rest),
                 (posts_done (fst (snd (lift_init c0 st)))
                  <= posts_done (fst st) + 0)%nat)
        by (intros; rewrite (proj1 (Hip c0 st)); lia).
      assert (H2 : forall c0 (st : Rest),
                 (posts_done (fst (snd (generate_content ext prompt files m g c0 st)))
                  <= posts_done (fst st) + 1)%nat)
        by (intros; apply generate_content_posts_at_most_once).
      specialize (Hm H1 H2 _ _ _ _ _ Hr). simpl in Hm. lia.
    + pose proof (wrapper_fuel_measure lift_init (generate_content ext prompt files m g)
                    (fun st => handshakes_done (fst st)) 1 0) as Hm.
      cbv beta in Hm.
      assert (H1 : forall c0 (st : Rest),
                 (handshakes_done (fst (snd (lift_init c0 st)))
                  <= handshakes_done (fst st) + 1)%nat)
        by (intros; rewrite (proj2 (Hip c0 st)); lia).
      assert (H2 : forall c0 (st : Rest),
                 (handshakes_done
                    (fst (snd (generate_content ext prompt files m g c0 st)))
                  <= handshakes_done (fst st) + 0)%nat)
        by (intros;
            rewrite (proj2 (generate_content_posts_at_most_once
                              ext prompt files m g c0 st)); lia).
      specialize (Hm H1 H2 _ _ _ _ _ Hr). simpl in Hm. lia.
  - unfold GeminiClient_fetch_gems.
    destruct (wrapper_total init (fetch_gems ext) retry c w) as [r Hr].
    exists r. split; [exact Hr|].
    destruct (wrapper_fuel_counts _ _ _ _ _ _ _ Hr) as (_ & Hc & Hi).
    assert (Hinit : forall c0 w0,
              posts_done (snd (init c0 w0)) = posts_done w0 /\
              handshakes_done (snd (init c0 w0)) = S (handshakes_done w0)).
    { intros c0 w0. destruct (init_world c0 w0) as [Hh Hp]. auto. }
    split.
    + pose proof (wrapper_fuel_measure init (fetch_gems ext) posts_done 0 1) as Hm.
      assert (H1 : forall c0 w0, (posts_done (snd (init c0 w0)) <= posts_done w0 + 0)%nat)
        by (intros; rewrite (proj1 (Hinit c0 w0)); lia).
      assert (H2 : forall c0 w0,
                 (posts_done (snd (fetch_gems ext c0 w0)) <= posts_done w0 + 1)%nat)
        by (intros; rewrite fetch_gems_world; simpl; lia).
      specialize (Hm H1 H2 _ _ _ _ _ Hr). simpl in Hm. lia.
    + pose proof (wrapper_fuel_measure init (fetch_gems ext) handshakes_done 1 0) as Hm.
      assert (H1 : forall c0 w0,
                 (handshakes_done (snd (init c0 w0)) <= handshakes_done w0 + 1)%nat)
        by (intros; rewrite (proj2 (Hinit c0 w0)); lia).
      assert (H2 : forall c0 w0,
                 (handshakes_done (snd (fetch_gems ext c0 w0))
                  <= handshakes_done w0 + 0)%nat)
        by (intros; rewrite fetch_gems_world; simpl; lia).
      specialize (Hm H1 H2 _ _ _ _ _ Hr). simpl in Hm. lia.
Qed.

(** ** The gem cache *)

(** [fetch_gems] either returns a jar, which is then what [gems] gives and
    the only thing changed in the client, or raises and leaves the cache as
    it was; it closes the client only for the [APIError] of an invalid
    response.  It always makes exactly one POST. *)
Theorem fetch_gems_cache (ext : Externals) (c : GeminiClient) (w : World) :
  let r := fst (fst (fetch_gems ext c w)) in
  let c' := snd (fst (fetch_gems ext c w)) in
  posts_done (snd (fetch_gems ext c w)) = S (posts_done w) /\
  match r with
  | Ret jar => c' = set_gems jar c /\ gems c' = Ret jar /\ running c' = running c
  | Raise e =>
      _gems c' = _gems c /\ gems c' = gems c /\
      (c' = c \/ (c' = close c /\ e = APIError))
  end.
Proof.
  cbv zeta. split; [rewrite fetch_gems_world; reflexivity|].
  unfold fetch_gems, do_post.
  destruct (post w (posts_done w) (fetch_gems_request ext c)) as [resp|e];
    [|cbn; auto].
  destruct (negb (Z.eqb (status_code resp) 200)); [cbn; auto|].
  destruct (locate_gems ext (text resp)) as [[p cu]|e]; [|cbn; auto].
  match goal with
  | |- match fst (fst (match ?m with _ => _ end)) with _ => _ end => destruct m
  end; cbn; auto.
Qed.

(** ** The content envelope *)

Lemma mapM_lookup {B C : Type} (f : B -> result C) (l : list B) :
  forall bs, mapM f l = Ret bs ->
    List.length bs = List.length l /\
    forall i b, l !! i = Some b -> exists c, f b = Ret c /\ bs !! i = Some c.
Proof.
  induction l as [|b0 l IH]; intros bs H; simpl in H.
  - injection H as <-. split; [reflexivity|]. intros i b Hi. discriminate.
  - destruct (f b0) as [c0|e] eqn:E0; cbn [bind] in H; [|discriminate].
    destruct (mapM f l) as [cs|e] eqn:El; cbn [bind] in H; [|discriminate].
    injection H as <-. destruct (IH cs eq_refl) as [Hlen Hlk].
    split; [simpl; congruence|].
    intros [|i] b Hi; simpl in Hi.
    + injection Hi as <-. eauto.
    + exact (Hlk i b Hi).
Qed.

(** The first failure decides: [mapM] raises what the first failing item
    raises. *)
Lemma mapM_raises {B C : Type} (f : B -> result C) (l : list B) (e : exn) :
  mapM f l = Raise e ->
  exists i b, l !! i = Some b /\ f b = Raise e /\
    forall j b', (j < i)%nat -> l !! j = Some b' -> exists c, f b' = Ret c.
Proof.
  induction l as [|b0 l IH]; intros H; simpl in H; [discriminate|].
  destruct (f b0) as [c0|e0] eqn:E0; cbn [bind] in H.
  - destruct (mapM f l) as [cs|e1] eqn:El; cbn [bind] in H; [discriminate|].
    injection H as ->. destruct (IH eq_refl) as (i & b & Hi & Hf & Hbefore).
    exists (S i), b. split; [exact Hi|]. split; [exact Hf|].
    intros [|j] b' Hj Hb'; simpl in Hb'.
    + injection Hb' as <-. eauto.
    + apply (Hbefore j b'); [lia|exact Hb'].
  - injection H as ->. exists 0%nat, b0. split; [reflexivity|]. split; [exact E0|].
    intros j b' Hj. lia.
Qed.

(** No files and an empty list of files are encoded alike, as [[prompt]];
    with no gem and no session either, the turn envelope is
    [[[prompt], null, null]].  With files, the content is
    [[prompt, 0, null, attachments]] with one [[[ref], name]] per file, in
    the order of the files. *)
Theorem content_envelope_shape (ext : Externals) (prompt : string) :
  content_envelope ext prompt None = Ret (VList [VStr prompt]) /\
  content_envelope ext prompt (Some []) = Ret (VList [VStr prompt]) /\
  turn_envelope ext prompt (Some []) None None
    = Ret [VList [VStr prompt]; VNone; VNone] /\
  (forall files content,
     files <> [] ->
     content_envelope ext prompt (Some files) = Ret content ->
     exists atts,
       content = VList [VStr prompt; VInt 0; VNone; VList atts] /\
       List.length atts = List.length files /\
       forall i file, files !! i = Some file ->
         exists u n, upload_file ext file = Ret u /\
                     parse_file_name ext file = Ret n /\
                     atts !! i = Some (VList [VList [u]; n])).
Proof.
  split; [reflexivity|]. split; [reflexivity|]. split; [reflexivity|].
  intros files content Hne H. unfold content_envelope in H.
  destruct files as [|f0 fs]; [contradiction|].
  match type of H with
  | context [mapM ?f ?l] => destruct (mapM f l) as [atts|e] eqn:Em
  end; cbn [bind] in H; [|discriminate].
  injection H as <-. exists atts. split; [reflexivity|].
  destruct (mapM_lookup _ _ _ Em) as [Hlen Hlk]. split; [exact Hlen|].
  intros i file Hi. destruct (Hlk i file Hi) as (a & Ha & Hat).
  destruct (upload_file ext file) as [u|e]; cbn [bind] in Ha; [|discriminate].
  destruct (parse_file_name ext file) as [n|e]; cbn [bind] in Ha; [|discriminate].
  injection Ha as <-. eauto.
Qed.

Example content_envelope_two_files :
  content_envelope Sample.ext "look" (Some ["a.png"; "b.pdf"])
  = Ret (VList [VStr "look"; VInt 0; VNone;
                VList [VList [VList [VStr "a.png"]; VStr "a.png"];
                       VList [VList [VStr "b.pdf"]; VStr "b.pdf"]]]).
Proof. reflexivity. Qed.

(** ** Reading the response *)

Lemma classify_unbound (ext : Externals) : classify ext None = APIError.
Proof. reflexivity. Qed.

(** A response with fewer than three lines, or whose third line does not
    decode, ends in the generic [APIError] (there is nothing to read a
    code from) and closes the client. *)
Theorem unreadable_response (ext : Externals) (c : GeminiClient)
    (chat : option ChatSession) (t : string) :
  (List.length (Str.split_on Str.newline t) < 3)%nat \/
  (exists line e, Str.split_on Str.newline t !! 2%nat = Some line /\
                  loads ext line = Raise e) ->
  parse_response ext c chat t = (Raise APIError, close c, chat) /\
  running (close c) = false.
Proof.
  intros H. split; [|reflexivity].
  assert (Ht : exists e, third_line ext t = Raise e).
  { unfold third_line, list_getitem. destruct H as [Hlen|(line & e & Hl & He)].
    - unfold norm_index.
      destruct (Z.ltb_spec 2 (Z.of_nat (List.length (Str.split_on Str.newline t))));
        [lia|].
      cbn [Z.leb andb].
      destruct (Z.leb (- Z.of_nat (List.length (Str.split_on Str.newline t))) 2);
        cbn; eauto.
    - change 2 with (Z.of_nat 2).
      rewrite norm_index_small by (apply lookup_lt_Some in Hl; lia).
      rewrite Hl. cbn [bind]. rewrite He. eauto. }
  destruct Ht as [e Ht].
  unfold parse_response, locate_body. rewrite Ht. reflexivity.
Qed.

Lemma unreadable_response_witness :
  parse_response Sample.ext Sample.running_client None "<html>Error</html>"
  = (Raise APIError, close Sample.running_client, None).
Proof.
  refine (proj1 (unreadable_response Sample.ext Sample.running_client None
                   "<html>Error</html>" (or_introl _))).
  simpl. lia.
Defined.

Lemma find_body_raises (ext : Externals) (parts : list pyval) (k : nat)
    (part : pyval) (e : exn) :
  parts !! k = Some part ->
  try_part ext part = Raise e ->
  (forall j p, (j < k)%nat -> parts !! j = Some p -> try_part ext p = Ret None) ->
  forall i, find_body ext parts i = Raise e.
Proof.
  revert k. induction parts as [|p0 rest IH]; intros k Hk He Hbefore i;
    [discriminate|].
  destruct k as [|k]; simpl in Hk.
  - injection Hk as ->. simpl. rewrite He. reflexivity.
  - simpl. rewrite (Hbefore 0%nat p0) by (lia || reflexivity). cbn [bind].
    apply (IH k Hk He).
    intros j p Hj Hp. apply (Hbefore (S j) p); [lia|exact Hp].
Qed.

(** The search gives up at a part that is a JSON object: subscripting it
    raises [KeyError], which the loop does not catch.  Whatever the later
    parts hold, the call fails as a structural failure and the client is
    closed. *)
Theorem object_part_aborts_search (ext : Externals) (c : GeminiClient)
    (chat : option ChatSession) (t : string) (parts : list pyval) (k : nat)
    (d : list (string * pyval)) :
  third_line ext t = Ret (VList parts) ->
  parts !! k = Some (VDict d) ->
  (forall j p, (j < k)%nat -> parts !! j = Some p -> try_part ext p = Ret None) ->
  locate_body ext t = (Some (VList parts), Raise KeyError) /\
  parse_response ext c chat t
  = (Raise (classify ext (Some (VList parts))), close c, chat).
Proof.
  intros Ht Hk Hbefore.
  assert (Hloc : locate_body ext t = (Some (VList parts), Raise KeyError)).
  { unfold locate_body. rewrite Ht. cbn [iterate bind].
    rewrite (find_body_raises ext parts k (VDict d) KeyError Hk eq_refl Hbefore).
    reflexivity. }
  split; [exact Hloc|].
  rewrite (parse_response_failure ext c chat t KeyError) by (rewrite Hloc; reflexivity).
  rewrite Hloc. reflexivity.
Qed.

Lemma object_part_aborts_search_witness :
  parse_response Sample2.object_first_ext Sample.running_client None Sample.answer_text
  = (Raise APIError, close Sample.running_client, None).
Proof.
  destruct (object_part_aborts_search Sample2.object_first_ext Sample.running_client
              None Sample.answer_text
              [VDict [("k", VNone)]; VList [VStr "wrb.fr"; VNone; VStr "BODY"]]
              0 [("k", VNone)] eq_refl eq_refl) as [_ Hp].
  - intros j p Hj. lia.
  - rewrite Hp. reflexivity.
Defined.

(** The body is the first part that passes the test: every part before it
    was skipped, and [body_index] is its position. *)
Theorem find_body_first (ext : Externals) (parts : list pyval)
    (body_index : nat) (body : pyval) :
  find_body ext parts 0 = Ret (Some (body_index, body)) ->
  (exists part, parts !! body_index = Some part /\
                try_part ext part = Ret (Some body)) /\
  (forall j p, (j < body_index)%nat -> parts !! j = Some p ->
               try_part ext p = Ret None) /\
  truthy body = true.
Proof.
  assert (G : forall ps i bi b,
             find_body ext ps i = Ret (Some (bi, b)) ->
             forall j p, (j < bi - i)%nat -> ps !! j = Some p ->
                         try_part ext p = Ret None).
  { induction ps as [|p0 rest IH]; intros i bi b H j p Hj Hp; [discriminate|].
    simpl in H.
    destruct (try_part ext p0) as [[mp|]|e] eqn:E; simpl in H; [| |discriminate].
    - injection H as <- <-. lia.
    - destruct j as [|j]; simpl in Hp.
      + injection Hp as <-. exact E.
      + destruct (find_body_found _ _ _ _ _ H) as (_ & Hle & _).
        apply (IH _ _ _ H j p); [lia|exact Hp]. }
  intros H.
  destruct (find_body_found _ _ _ _ _ H) as (part & _ & Hp & Ht).
  rewrite Nat.sub_0_r in Hp.
  split; [eauto|]. split.
  - intros j p Hj Hjp. apply (G parts 0%nat body_index body H j p); [lia|exact Hjp].
  - destruct (try_part_some _ _ _ Ht) as (x & y & _ & _ & Hy & _).
    destruct body as [| | | |s|l|d]; simpl in Hy; try discriminate.
    + unfold list_getitem in Hy. destruct s; [discriminate|reflexivity].
    + unfold list_getitem in Hy. destruct l; [discriminate|reflexivity].
Qed.

Lemma find_body_first_witness :
  try_part (Sample.answer_ext Sample.plain_candidate)
    (VList [VStr "wrb.fr"; VNone; VNone]) = Ret None.
Proof.
  refine (proj1 (proj2 (find_body_first (Sample.answer_ext Sample.plain_candidate)
                          [VList [VStr "wrb.fr"; VNone; VNone];
                           VList [VStr "wrb.fr"; VNone; VStr "BODY"]]
                          1 (Sample.answer_body Sample.plain_candidate) eq_refl))
            0%nat _ _ eq_refl).
  lia.
Defined.

(** Once a body has been located the client is not closed, whatever
    happens next; and a [TypeError] or [IndexError] while reading the body
    never leaves [build_output] as such. *)
Theorem located_body_keeps_client (ext : Externals) (c : GeminiClient)
    (chat : option ChatSession) (t : string) (response_json : pyval)
    (body_index : nat) (body : pyval) :
  locate_body ext t = (Some response_json, Ret (body_index, body)) ->
  snd (fst (parse_response ext c chat t)) = c /\
  (forall e, build_output ext response_json body_index body = Raise e ->
     isinstance_any e [TypeError; IndexError] = false /\
     parse_response ext c chat t = (Raise e, c, chat)).
Proof.
  intros Hloc. unfold parse_response. rewrite Hloc. split.
  - destruct (build_output ext response_json body_index body) as [o|e];
      [|reflexivity].
    destruct chat as [s|]; [|reflexivity].
    destruct (Session.set_last_output s o). reflexivity.
  - intros e He. rewrite He. split; [|reflexivity].
    unfold build_output in He.
    match type of He with
    | match ?m with _ => _ end = _ => destruct m as [o|e0]
    end; [discriminate|].
    destruct (isinstance_any e0 [TypeError; IndexError]) eqn:E0.
    + injection He as <-. reflexivity.
    + injection He as <-. exact E0.
Qed.

Lemma located_body_keeps_client_witness :
  parse_response Sample2.short_candidate_ext Sample.running_client None
    Sample.answer_text
  = (Raise APIError, Sample.running_client, None).
Proof.
  exact (proj2 (proj2 (located_body_keeps_client Sample2.short_candidate_ext
                         Sample.running_client None Sample.answer_text
                         Sample.answer_json 1
                         (Sample.answer_body (VList [VStr "rc_1"; VList [VStr "Hello"]]))
                         eq_refl) APIError eq_refl)).
Defined.

(** Whatever stops the search for the body, the call ends in one of four
    exceptions and the client is closed. *)
Theorem structural_failure_closes (ext : Externals) (c : GeminiClient)
    (chat : option ChatSession) (t : string) (e0 : exn) :
  snd (locate_body ext t) = Raise e0 ->
  exists e,
    parse_response ext c chat t = (Raise e, close c, chat) /\
    running (close c) = false /\
    (e = APIError \/ e = UsageLimitExceeded \/ e = ModelInvalid \/
     e = TemporarilyBlocked).
Proof.
  intros H. exists (classify ext (fst (locate_body ext t))).
  split; [exact (parse_response_failure ext c chat t e0 H)|].
  split; [reflexivity|].
  unfold classify.
  destruct (fst (locate_body ext t)) as [rj|]; cbn [bind]; [|auto].
  destruct (getpath rj error_code_path) as [code|e1] eqn:Ep; cbn [bind].
  - destruct (ErrorCode_of_value ext code) as [[| |]|]; cbn; auto.
  - destruct (getpath_raises _ _ _ Ep) as [->|[->| ->]]; cbn; auto.
Qed.

Lemma structural_failure_closes_witness :
  exists e,
    parse_response Sample.ext Sample.running_client None "" =
      (Raise e, close Sample.running_client, None) /\
    running (close Sample.running_client) = false /\
    (e = APIError \/ e = UsageLimitExceeded \/ e = ModelInvalid \/
     e = TemporarilyBlocked).
Proof.
  exact (structural_failure_closes Sample.ext Sample.running_client None ""
           IndexError eq_refl).
Defined.

Lemma scan_finds_body_witness :
  find_img_body (Sample.answer_ext Sample.image_candidate) 1 0
    [VList [VStr "wrb.fr"; VNone; VNone]; VList [VStr "wrb.fr"; VNone; VStr "BODY"]] 0
  = Ret (Some (Sample.answer_body Sample.image_candidate)).
Proof.
  exact (proj1 (scan_finds_body (Sample.answer_ext Sample.image_candidate)
                  Sample.answer_json _ 1 (Sample.answer_body Sample.image_candidate)
                  (VList [Sample.image_candidate]) [Sample.image_candidate] 0
                  Sample.image_candidate
                  eq_refl eq_refl eq_refl eq_refl eq_refl eq_refl)).
Defined.

(** ** More on the session *)

Lemma set_last_output_length (s : ChatSession) (o : ModelOutput) :
  List.length (metadata s) = 3%nat ->
  List.length (metadata (snd (Session.set_last_output s o))) = 3%nat /\
  last_output (snd (Session.set_last_output s o)) = Some o.
Proof.
  intros Hl. unfold Session.set_last_output.
  destruct (Session.set_metadata (with_last_output o s) (out_metadata o))
    as [s2|e] eqn:E2; [|auto].
  assert (H2 : List.length (metadata s2) = 3%nat)
    by exact (set_metadata_length (with_last_output o s) s2 _ Hl E2).
  assert (L2 : last_output s2 = Some o).
  { unfold Session.set_metadata in E2.
    destruct (Z.ltb 3 _); [discriminate|]. injection E2 as <-. reflexivity. }
  destruct (ModelOutput_rcid o) as [r|e]; [|auto].
  destruct (Session.set_rcid s2 r) as [s3|e] eqn:E3; [|auto].
  cbn [snd]. split.
  - rewrite (set_slot_length _ _ _ _ E3). exact H2.
  - unfold Session.set_rcid, Session.set_slot in E3.
    destruct (list_setitem (metadata s2) 2 r); cbn [bind] in E3; [|discriminate].
    injection E3 as <-. exact L2.
Qed.

Lemma choose_candidate_length (s : ChatSession) (i : Z) :
  List.length (metadata s) = 3%nat ->
  List.length (metadata (snd (Session.choose_candidate s i))) = 3%nat.
Proof.
  intros Hl. unfold Session.choose_candidate.
  destruct (last_output s) as [o|]; [|exact Hl].
  destruct (Z.leb _ i); [exact Hl|].
  destruct (ModelOutput_rcid _) as [r|e]; [|exact Hl].
  destruct (Session.set_rcid _ r) as [s2|e] eqn:E; [|exact Hl].
  cbn [snd]. rewrite (set_slot_length _ _ _ _ E). exact Hl.
Qed.

Lemma after_call_length (s : ChatSession) (k : session_call) :
  List.length (metadata s) = 3%nat ->
  List.length (metadata (after_call s k)) = 3%nat.
Proof.
  intros Hl. destruct k as [v|v|v|v|o|i]; cbn [after_call].
  - destruct (Session.set_metadata s v) eqn:E; [|exact Hl].
    exact (set_metadata_length _ _ _ Hl E).
  - destruct (Session.set_cid s v) eqn:E; [|exact Hl].
    rewrite (set_slot_length _ _ _ _ E). exact Hl.
  - destruct (Session.set_rid s v) eqn:E; [|exact Hl].
    rewrite (set_slot_length _ _ _ _ E). exact Hl.
  - destruct (Session.set_rcid s v) eqn:E; [|exact Hl].
    rewrite (set_slot_length _ _ _ _ E). exact Hl.
  - exact (proj1 (set_last_output_length s o Hl)).
  - exact (choose_candidate_length s i Hl).
Qed.

(** A session keeps exactly three lineage slots through any sequence of
    setter calls, output assignments and candidate choices, failed ones
    included; so [cid], [rid] and [rcid] can always be read. *)
Theorem session_keeps_three_slots (metadata0 : option (list pyval))
    (cid0 rid0 rcid0 : pyval) (m : model_arg) (g : option gem_arg)
    (s : ChatSession) (calls : list session_call) :
  Session.new metadata0 cid0 rid0 rcid0 m g = Ret s ->
  List.length (metadata (after_calls s calls)) = 3%nat /\
  exists a b c,
    Session.cid (after_calls s calls) = Ret a /\
    Session.rid (after_calls s calls) = Ret b /\
    Session.rcid (after_calls s calls) = Ret c.
Proof.
  intros Hnew. pose proof (new_length _ _ _ _ _ _ _ Hnew) as Hl.
  assert (H3 : List.length (metadata (after_calls s calls)) = 3%nat).
  { unfold after_calls. clear Hnew. revert s Hl.
    induction calls as [|k ks IH]; intros s Hl; [exact Hl|].
    simpl. apply IH. exact (after_call_length s k Hl). }
  split; [exact H3|].
  destruct (metadata (after_calls s calls)) as [|a [|b [|c [|d l]]]] eqn:Em;
    try discriminate.
  exists a, b, c. unfold Session.cid, Session.rid, Session.rcid.
  rewrite Em. repeat split.
Qed.

Lemma session_keeps_three_slots_witness :
  List.length
    (metadata
       (after_calls Sample.new_session
          [CallSetMetadata [VStr "a"; VStr "b"; VStr "c"; VStr "d"];
           CallChooseCandidate 0;
           CallSetLastOutput Sample.two_candidates;
           CallChooseCandidate (-5);
           CallSetRid (VStr "r")])) = 3%nat.
Proof.
  exact (proj1 (session_keeps_three_slots None VNone VNone VNone
                  (ModelMember "unspecified") None Sample.new_session _ eq_refl)).
Defined.

(** Assigning an output to [last_output] with at most 3 lineage entries
    and an existing chosen candidate: the entries overwrite the leading
    slots, then [rcid] is overwritten with the chosen candidate's id (also
    when the output supplied a third entry); slots the output does not
    reach, other than [rcid], keep their values. *)
Theorem set_last_output_updates (s : ChatSession) (o : ModelOutput)
    (cand : Candidate) :
  List.length (metadata s) = 3%nat ->
  (List.length (out_metadata o) <= 3)%nat ->
  list_getitem (out_candidates o) (out_chosen o) = Ret cand ->
  Session.set_last_output s o
  = (Ret tt,
     mkChatSession
       (<[2%nat:=cand_rcid cand]>
          (out_metadata o ++ drop (List.length (out_metadata o)) (metadata s))%list)
       (Some o) (model s) (gem s)) /\
  (forall i, (i < 2)%nat ->
     metadata (snd (Session.set_last_output s o)) !! i
     = if Nat.ltb i (List.length (out_metadata o))
       then out_metadata o !! i else metadata s !! i) /\
  Session.rcid (snd (Session.set_last_output s o)) = Ret (cand_rcid cand).
Proof.
  intros Hl Hm Hc.
  assert (E : Session.set_last_output s o
              = (Ret tt,
                 mkChatSession
                   (<[2%nat:=cand_rcid cand]>
                      (out_metadata o ++ drop (List.length (out_metadata o)) (metadata s))%list)
                   (Some o) (model s) (gem s))).
  { unfold Session.set_last_output, Session.set_metadata.
    destruct (Z.ltb_spec 3 (Z.of_nat (List.length (out_metadata o)))); [lia|].
    unfold ModelOutput_rcid. rewrite Hc. cbn [bind].
    unfold Session.set_rcid, Session.set_slot, list_setitem.
    cbn [metadata with_metadata with_last_output].
    change 2 with (Z.of_nat 2).
    rewrite norm_index_small
      by (rewrite List.length_app, length_drop; lia).
    reflexivity. }
  split; [exact E|]. rewrite E. cbn [snd metadata]. split.
  - intros i Hi. rewrite list_lookup_insert_ne by lia.
    destruct (Nat.ltb_spec i (List.length (out_metadata o))).
    + apply lookup_app_l. assumption.
    + rewrite lookup_app_r by assumption. rewrite lookup_drop. f_equal. lia.
  - unfold Session.rcid, list_getitem. cbn [metadata].
    rewrite length_insert. change 2 with (Z.of_nat 2).
    rewrite norm_index_small by (rewrite List.length_app, length_drop; lia).
    rewrite list_lookup_insert_eq by (rewrite List.length_app, length_drop; lia).
    reflexivity.
Qed.

Lemma set_last_output_updates_witness :
  Session.set_last_output Sample.new_session Sample.two_candidates
  = (Ret tt,
     mkChatSession [VStr "c_1"; VStr "r_1"; VStr "rc_a"] (Some Sample.two_candidates)
       (ModelMember "unspecified") None).
Proof.
  refine (proj1 (set_last_output_updates Sample.new_session Sample.two_candidates
                   Sample.candidate_a eq_refl _ eq_refl)).
  simpl. lia.
Defined.

(** When the assignment raises, the new output is already in place: with
    more than 3 lineage entries it is a [ValueError] and no slot has
    changed; with no candidate at [chosen] it is an [IndexError] after the
    entries were written. *)
Theorem set_last_output_failure (s : ChatSession) (o : ModelOutput) :
  List.length (metadata s) = 3%nat ->
  ((3 < List.length (out_metadata o))%nat ->
     Session.set_last_output s o = (Raise ValueError, with_last_output o s)) /\
  ((List.length (out_metadata o) <= 3)%nat ->
   (forall e, list_getitem (out_candidates o) (out_chosen o) = Raise e ->
      Session.set_last_output s o
      = (Raise IndexError,
         mkChatSession
           (out_metadata o ++ drop (List.length (out_metadata o)) (metadata s))%list
           (Some o) (model s) (gem s)))) /\
  (forall e, fst (Session.set_last_output s o) = Raise e ->
     last_output (snd (Session.set_last_output s o)) = Some o /\
     (e = ValueError \/ e = IndexError)).
Proof.
  intros Hl. split; [|split].
  - intros Hm. unfold Session.set_last_output, Session.set_metadata.
    destruct (Z.ltb_spec 3 (Z.of_nat (List.length (out_metadata o)))); [|lia].
    reflexivity.
  - intros Hm e He. unfold Session.set_last_output, Session.set_metadata.
    destruct (Z.ltb_spec 3 (Z.of_nat (List.length (out_metadata o)))); [lia|].
    unfold ModelOutput_rcid. rewrite He. cbn [bind].
    rewrite (list_getitem_raises _ _ _ He). reflexivity.
  - intros e He. split; [exact (proj2 (set_last_output_length s o Hl))|].
    revert He. unfold Session.set_last_output, Session.set_metadata.
    destruct (Z.ltb_spec 3 (Z.of_nat (List.length (out_metadata o)))).
    { cbn. intros [= <-]. auto. }
    unfold ModelOutput_rcid.
    destruct (list_getitem (out_candidates o) (out_chosen o)) as [cand|e1] eqn:Ec;
      cbn [bind].
    2:{ cbn. intros [= <-]. right. exact (list_getitem_raises _ _ _ Ec). }
    unfold Session.set_rcid, Session.set_slot, list_setitem.
    cbn [metadata with_metadata with_last_output].
    change 2 with (Z.of_nat 2).
    rewrite norm_index_small by (rewrite List.length_app, length_drop; lia).
    cbn. discriminate.
Qed.

Lemma set_last_output_failure_witness :
  Session.set_last_output Sample.new_session
    (mkModelOutput [VStr "c"; VStr "r"; VStr "rc"; VStr "extra"] [Sample.candidate_a] 0)
  = (Raise ValueError,
     mkChatSession [VNone; VNone; VNone]
       (Some (mkModelOutput [VStr "c"; VStr "r"; VStr "rc"; VStr "extra"]
                [Sample.candidate_a] 0))
       (ModelMember "unspecified") None).
Proof.
  refine (proj1 (set_last_output_failure Sample.new_session
                   (mkModelOutput [VStr "c"; VStr "r"; VStr "rc"; VStr "extra"]
                      [Sample.candidate_a] 0) eq_refl) _).
  simpl. lia.
Defined.

Lemma choose_candidate_eq (s : ChatSession) (o : ModelOutput) (index : Z)
    (cand : Candidate) :
  List.length (metadata s) = 3%nat ->
  last_output s = Some o ->
  index < Z.of_nat (List.length (out_candidates o)) ->
  list_getitem (out_candidates o) index = Ret cand ->
  Session.choose_candidate s index
  = (Ret (mkModelOutput (out_metadata o) (out_candidates o) index),
     mkChatSession (<[2%nat:=cand_rcid cand]> (metadata s))
       (Some (mkModelOutput (out_metadata o) (out_candidates o) index))
       (model s) (gem s)).
Proof.
  intros Hl Ho Hi Hc. unfold Session.choose_candidate. rewrite Ho.
  destruct (Z.leb_spec (Z.of_nat (List.length (out_candidates o))) index); [lia|].
  unfold ModelOutput_rcid. cbn [out_candidates out_chosen]. rewrite Hc. cbn [bind].
  unfold Session.set_rcid, Session.set_slot, list_setitem.
  cbn [metadata with_last_output]. change 2 with (Z.of_nat 2).
  rewrite norm_index_small by lia. reflexivity.
Qed.

Lemma list_getitem_in_range {B : Type} (l : list B) (i : Z) :
  - Z.of_nat (List.length l) <= i < Z.of_nat (List.length l) ->
  exists b, list_getitem l i = Ret b.
Proof.
  intros Hi. destruct (Z.lt_ge_cases i 0).
  - destruct (list_getitem_negative l i) as (b & _ & Hb); [lia|eauto].
  - destruct (lookup_lt_is_Some_2 l (Z.to_nat i)) as [b Hb]; [lia|].
    exists b. rewrite <- (Z2Nat.id i) by lia. apply list_getitem_small. exact Hb.
Qed.

(** Choosing twice is choosing the second: for two indices Python accepts
    (from [-n] to [n - 1]), the session and the output after
    [choose_candidate(i)] then [choose_candidate(j)] are those after
    [choose_candidate(j)] alone. *)
Theorem choose_candidate_last_wins (s : ChatSession) (o : ModelOutput) (i j : Z) :
  List.length (metadata s) = 3%nat ->
  last_output s = Some o ->
  - Z.of_nat (List.length (out_candidates o)) <= i
    < Z.of_nat (List.length (out_candidates o)) ->
  - Z.of_nat (List.length (out_candidates o)) <= j
    < Z.of_nat (List.length (out_candidates o)) ->
  Session.choose_candidate (snd (Session.choose_candidate s i)) j
  = Session.choose_candidate s j.
Proof.
  intros Hl Ho Hi Hj.
  destruct (list_getitem_in_range _ _ Hi) as [ci Hci].
  destruct (list_getitem_in_range _ _ Hj) as [cj Hcj].
  rewrite (choose_candidate_eq s o i ci Hl Ho (proj2 Hi) Hci). cbn [snd].
  rewrite (choose_candidate_eq s o j cj Hl Ho (proj2 Hj) Hcj).
  rewrite (choose_candidate_eq _ (mkModelOutput (out_metadata o) (out_candidates o) i)
             j cj); cbn [metadata last_output out_candidates out_metadata model gem];
    try assumption; try reflexivity.
  - rewrite list_insert_insert_eq. reflexivity.
  - rewrite length_insert. exact Hl.
  - exact (proj2 Hj).
Qed.

Lemma choose_candidate_last_wins_witness :
  Session.choose_candidate
    (snd (Session.choose_candidate Sample.session_after_turn 1)) (-2)
  = Session.choose_candidate Sample.session_after_turn (-2).
Proof.
  apply (choose_candidate_last_wins Sample.session_after_turn Sample.two_candidates);
    first [reflexivity | simpl; lia].
Defined.

(** An index below [-n] passes the bounds check too, but there is no such
    candidate: the call raises [IndexError], not [ValueError], after it has
    stored the index as [chosen]; the lineage is untouched. *)
Theorem choose_candidate_below_minus_n (s : ChatSession) (o : ModelOutput)
    (index : Z) :
  last_output s = Some o ->
  index < - Z.of_nat (List.length (out_candidates o)) ->
  Session.choose_candidate s index
  = (Raise IndexError,
     with_last_output (mkModelOutput (out_metadata o) (out_candidates o) index) s) /\
  ModelOutput_rcid (mkModelOutput (out_metadata o) (out_candidates o) index)
  = Raise IndexError.
Proof.
  intros Ho Hi.
  assert (Hr : ModelOutput_rcid (mkModelOutput (out_metadata o) (out_candidates o) index)
               = Raise IndexError).
  { unfold ModelOutput_rcid, list_getitem, norm_index. cbn [out_candidates out_chosen].
    destruct (Z.leb_spec 0 index); [lia|]. cbn [andb].
    destruct (Z.leb_spec (- Z.of_nat (List.length (out_candidates o))) index); [lia|].
    reflexivity. }
  split; [|exact Hr].
  unfold Session.choose_candidate. rewrite Ho.
  destruct (Z.leb_spec (Z.of_nat (List.length (out_candidates o))) index); [lia|].
  rewrite Hr. reflexivity.
Qed.

Lemma choose_candidate_below_minus_n_witness :
  Session.choose_candidate Sample.session_after_turn (-3)
  = (Raise IndexError,
     mkChatSession [VStr "c_1"; VStr "r_1"; VStr "rc_a"]
       (Some (mkModelOutput [VStr "c_1"; VStr "r_1"]
                [Sample.candidate_a; Sample.candidate_b] (-3)))
       (ModelMember "unspecified") None).
Proof.
  refine (proj1 (choose_candidate_below_minus_n Sample.session_after_turn
                   Sample.two_candidates (-3) eq_refl _)).
  simpl. lia.
Defined.

(** [__init__]: [metadata] with more than 3 entries is refused with
    [ValueError]; otherwise each slot holds the id passed by name if one
    was passed (a non-empty value), else the entry of [metadata] at that
    position, else [None]. *)
Theorem new_session_slots (metadata0 : option (list pyval))
    (cid0 rid0 rcid0 : pyval) (m : model_arg) (g : option gem_arg) :
  let l := match metadata0 with Some l => l | None => [] end in
  ((3 < List.length l)%nat ->
     Session.new metadata0 cid0 rid0 rcid0 m g = Raise ValueError) /\
  ((List.length l <= 3)%nat ->
     Session.new metadata0 cid0 rid0 rcid0 m g
     = Ret (mkChatSession
              [slot_or cid0 (nth 0 l VNone); slot_or rid0 (nth 1 l VNone);
               slot_or rcid0 (nth 2 l VNone)]
              None m g)).
Proof.
  unfold slot_or.
  destruct metadata0 as [l|]; cbv zeta.
  - destruct l as [|a [|b [|c [|d l]]]]; split; intros Hlen;
      try (simpl in Hlen; lia); unfold Session.new; cbn -[truthy];
      try reflexivity;
      try (destruct (truthy cid0), (truthy rid0), (truthy rcid0); reflexivity).
    change (truthy (VList (a :: b :: c :: d :: l))) with true. cbv iota.
    unfold Session.set_metadata.
    destruct (Z.ltb_spec 3 (Z.of_nat (List.length (a :: b :: c :: d :: l))));
      [reflexivity|]. simpl in *. lia.
  - split; intros Hlen; [simpl in Hlen; lia|].
    unfold Session.new. cbn -[truthy].
    destruct (truthy cid0), (truthy rid0), (truthy rcid0); reflexivity.
Qed.

Example new_session_override :
  Session.new (Some [VStr "c"; VStr "r"]) (VStr "other") VNone (VStr "rc")
    (ModelMember "unspecified") None
  = Ret (mkChatSession [VStr "other"; VStr "r"; VStr "rc"] None
           (ModelMember "unspecified") None).
Proof. reflexivity. Qed.

(** ** The session across a call of [generate_content] *)

Lemma set_last_output_last (s : ChatSession) (o : ModelOutput) :
  last_output (snd (Session.set_last_output s o)) = Some o.
Proof.
  unfold Session.set_last_output.
  destruct (Session.set_metadata (with_last_output o s) (out_metadata o))
    as [s2|e] eqn:E2; [|reflexivity].
  assert (L2 : last_output s2 = Some o).
  { unfold Session.set_metadata in E2.
    destruct (Z.ltb 3 _); [discriminate|]. injection E2 as <-. reflexivity. }
  destruct (ModelOutput_rcid o) as [rc|e]; [|exact L2].
  destruct (Session.set_rcid s2 rc) as [s3|e] eqn:E3; [|exact L2].
  unfold Session.set_rcid, Session.set_slot in E3.
  destruct (list_setitem (metadata s2) 2 rc); cbn [bind] in E3; [|discriminate].
  injection E3 as <-. exact L2.
Qed.

(** A call without a session creates none.  A call with a session leaves
    it exactly as it was unless an output was built, in which case the
    session is what assigning that output to [last_output] makes of it;
    and when the call returns an output, that output is the session's
    [last_output]. *)
Theorem generate_content_session (ext : Externals) (prompt : string)
    (files : option (list string)) (m : model_arg) (g : option gem_arg)
    (c : GeminiClient) (w : World) (chat : option ChatSession) :
  let res := generate_content ext prompt files m g c (w, chat) in
  let chat' := snd (snd res) in
  (chat = None -> chat' = None) /\
  (forall s, chat = Some s ->
     chat' = Some s \/
     exists o, chat' = Some (snd (Session.set_last_output s o)) /\
               last_output (snd (Session.set_last_output s o)) = Some o) /\
  (forall s o, chat = Some s -> fst (fst res) = Ret o ->
     exists s', chat' = Some s' /\ Session.set_last_output s o = (Ret tt, s') /\
                last_output s' = Some o).
Proof.
  cbv zeta. unfold generate_content.
  destruct (Nat.eqb (String.length prompt) 0).
  { cbn. repeat split; auto; discriminate. }
  destruct (resolve_model ext m) as [name|e1].
  2:{ cbn. repeat split; auto; discriminate. }
  destruct (turn_envelope ext prompt files g chat) as [env|e2].
  2:{ cbn. repeat split; auto; discriminate. }
  unfold do_post. destruct (post w (posts_done w) _) as [resp|e3].
  2:{ cbn. repeat split; auto; discriminate. }
  destruct (negb (Z.eqb (status_code resp) 200)).
  { cbn. repeat split; auto; discriminate. }
  unfold parse_response.
  destruct (locate_body ext (text resp)) as [[rj|] [[bi body]|e4]];
    try (cbn; repeat split; auto; discriminate).
  destruct (build_output ext rj bi body) as [o|e5].
  2:{ cbn. repeat split; auto; discriminate. }
  destruct chat as [s|].
  2:{ cbn. repeat split; auto; discriminate. }
  pose proof (set_last_output_last s o) as Hlast.
  destruct (Session.set_last_output s o) as [r s'] eqn:Es.
  cbn [fst snd] in *. split; [discriminate|]. split.
  - intros s0 [= <-]. right. exists o. rewrite Es. auto.
  - intros s0 o0 [= <-] Hr. destruct r as [[]|e]; cbn [bind] in Hr; [|discriminate].
    injection Hr as <-. exists s'. auto.
Qed.

(** ** The patterns *)

Lemma strip_prefix_spec (p : string) :
  forall s r, Str.strip_prefix p s = Some r <-> s = p ++ r.
Proof.
  induction p as [|a p IH]; intros s r; simpl.
  - split; [intros [= ->]; reflexivity | intros ->; reflexivity].
  - destruct s as [|b s]; [split; discriminate|].
    destruct (Ascii.eqb_spec a b) as [->|Hne].
    + rewrite IH. split; [intros ->; reflexivity | intros [= ->]; reflexivity].
    + split; [discriminate | intros [= -> _]; contradiction].
Qed.

Lemma count_digits_pos (s : string) :
  Str.count_digits s <> 0%nat <->
  exists d rest, s = String d rest /\ Str.is_digit d = true.
Proof.
  destruct s as [|c s]; simpl.
  - split; [contradiction | intros (d & rest & H & _); discriminate].
  - destruct (Str.is_digit c) eqn:E.
    + split; [eauto | discriminate].
    + split; [contradiction | intros (d & rest & [= -> ->] & H); congruence].
Qed.

(** On a text of characters up to U+00FF, the card-content test accepts
    exactly the texts that begin with
    [http://googleusercontent.com/card_content/] followed by one of the
    digits [0]..[9]. *)
Theorem is_card_content_spec (s : string) :
  Str.is_card_content s = true <->
  exists d rest, s = Str.card_content ++ String d rest /\ Str.is_digit d = true.
Proof.
  unfold Str.is_card_content, Str.match_marker.
  destruct (Str.strip_prefix Str.card_content s) as [r|] eqn:E.
  - apply strip_prefix_spec in E. subst s.
    destruct (Str.count_digits r) as [|n] eqn:En.
    + split; [discriminate|]. intros (d & rest & H & Hd).
      apply (f_equal (Str.strip_prefix Str.card_content)) in H.
      rewrite (proj2 (strip_prefix_spec _ _ _) eq_refl) in H.
      rewrite (proj2 (strip_prefix_spec _ _ _) eq_refl) in H.
      injection H as ->. simpl in En. rewrite Hd in En. discriminate.
    + split; [intros _|reflexivity].
      destruct (proj1 (count_digits_pos r)) as (d & rest & -> & Hd); [lia|eauto].
  - split; [discriminate|]. intros (d & rest & H & _).
    rewrite (proj2 (strip_prefix_spec _ _ _) H) in E. discriminate.
Qed.

Lemma rstrip_empty_iff (s : string) :
  Str.rstrip s = EmptyString <-> all_space s = true.
Proof.
  induction s as [|c s IH]; simpl; [tauto|].
  destruct (Str.rstrip s) as [|c' t] eqn:E.
  - destruct (Str.is_space c); simpl.
    + rewrite <- IH. tauto.
    + split; discriminate.
  - split; [discriminate|]. intros H. apply andb_true_iff in H.
    discriminate (proj2 IH (proj2 H)).
Qed.

(** On a text of characters up to U+00FF, [rstrip] cuts off exactly the
    trailing whitespace (U+0009..U+000D, U+001C..U+0020, U+0085, U+00A0):
    what is cut is whitespace only, and what is left is empty or ends in a
    character that is not whitespace. *)
Theorem rstrip_spec (s : string) :
  exists ws,
    s = Str.rstrip s ++ ws /\ all_space ws = true /\
    (forall t c, Str.rstrip s = t ++ String c EmptyString -> Str.is_space c = false) /\
    Str.rstrip (Str.rstrip s) = Str.rstrip s.
Proof.
  induction s as [|c s (ws & Hs & Hws & Hlast & Hidem)].
  - exists EmptyString. repeat split; try reflexivity.
    intros [|a t] c H; discriminate.
  - simpl. destruct (Str.rstrip s) as [|c' t'] eqn:E.
    + destruct (Str.is_space c) eqn:Ec.
      * exists (String c s). simpl. rewrite Ec.
        rewrite (proj1 (rstrip_empty_iff s) E). repeat split.
        intros [|a t] c0 H; discriminate.
      * simpl in Hs. subst ws. exists s. simpl.
        split; [reflexivity|]. split; [exact Hws|]. split.
        -- intros [|a t] c0 H; simpl in H.
           ++ injection H as <-. exact Ec.
           ++ injection H as _ H. destruct t; discriminate.
        -- rewrite Ec. reflexivity.
    + exists ws. simpl in Hs. simpl. rewrite <- Hs.
      repeat split; try assumption; try reflexivity.
      * intros [|a t] c0 H; simpl in H; [discriminate|].
        injection H as _ H. exact (Hlast t c0 H).
      * simpl in Hidem. rewrite Hidem. reflexivity.
Qed.

Lemma remove_markers_skip (p : string) (s : string) :
  forall t, Str.remove_markers p (String.length s) (s ++ t)
            = Str.remove_markers p 0 t.
Proof.
  induction s as [|c s IH]; intros t; simpl.
  - destruct t; reflexivity.
  - apply IH.
Qed.

Lemma count_digits_app (ds rest : string) :
  all_digits ds = true ->
  Str.count_digits rest = 0%nat ->
  Str.count_digits (ds ++ rest) = String.length ds.
Proof.
  intros Hd Hr. induction ds as [|d ds IH]; simpl in *; [exact Hr|].
  apply andb_true_iff in Hd. destruct Hd as [Hd Hds].
  rewrite Hd, (IH Hds). reflexivity.
Qed.

Lemma append_assoc (a b c : string) : (a ++ b) ++ c = a ++ (b ++ c).
Proof. induction a as [|x a IH]; simpl; [reflexivity|]. rewrite IH. reflexivity. Qed.

Lemma length_append (a b : string) :
  String.length (a ++ b) = (String.length a + String.length b)%nat.
Proof. induction a as [|x a IH]; simpl; [reflexivity|]. rewrite IH. reflexivity. Qed.

(** The substitution of the image placeholder, on a text of characters up
    to U+00FF: a text in which the pattern matches nowhere is returned as
    it is, and a match at the head (the prefix and all the digits [0]..[9]
    that follow) is dropped and the rest treated in the same way. *)
Theorem remove_markers_spec (p : string) :
  (forall s,
     (forall pre post, s = pre ++ post -> Str.match_marker p post = None) ->
     Str.remove_markers p 0 s = s) /\
  (forall ds rest,
     ds <> EmptyString -> all_digits ds = true ->
     Str.count_digits rest = 0%nat ->
     Str.remove_markers p 0 (p ++ ds ++ rest) = Str.remove_markers p 0 rest).
Proof.
  split.
  - induction s as [|c s IH]; intros H; [reflexivity|].
    simpl. rewrite (H EmptyString (String c s) eq_refl).
    rewrite IH; [reflexivity|].
    intros pre post ->. apply (H (String c pre) post). reflexivity.
  - intros ds rest Hne Hd Hr.
    destruct (p ++ ds ++ rest) as [|c s'] eqn:E.
    { destruct p; [destruct ds; [contradiction|discriminate]|discriminate]. }
    simpl.
    assert (Hm : Str.match_marker p (String c s')
                 = Some (String.length p + String.length ds)%nat).
    { rewrite <- E. unfold Str.match_marker.
      rewrite (proj2 (strip_prefix_spec p _ _) eq_refl).
      rewrite (count_digits_app ds rest Hd Hr).
      destruct ds; [contradiction|]. reflexivity. }
    rewrite Hm.
    assert (Hs : exists u, s' = u ++ rest /\
                           String.length u
                           = Nat.pred (String.length p + String.length ds)).
    { rewrite <- append_assoc in E.
      destruct (p ++ ds) as [|c0 u] eqn:Eu.
      - destruct p; [destruct ds; [contradiction|discriminate]|discriminate].
      - simpl in E. injection E as Hc0 Hs'. subst c0 s'.
        exists u. split; [reflexivity|].
        rewrite <- length_append, Eu. reflexivity. }
    destruct Hs as (u & -> & Hu). rewrite <- Hu.
    apply remove_markers_skip.
Qed.

Lemma remove_markers_spec_witness :
  Str.remove_markers Str.image_generation_content 0
    (Str.image_generation_content ++ "42" ++ " done")
  = Str.remove_markers Str.image_generation_content 0 " done".
Proof.
  exact (proj2 (remove_markers_spec Str.image_generation_content) "42" " done"
           ltac:(discriminate) eq_refl eq_refl).
Defined.

(** ** Optional parts of a candidate *)

(** Missing thoughts are not an error: whenever the path [[37][0][0]]
    cannot be followed because an item is absent or is not a sequence, the
    thoughts are [None].  The only exception that gets out is the
    [KeyError] of a JSON object on the path. *)
Theorem candidate_thoughts_optional (candidate : pyval) :
  (forall e, getpath candidate [37; 0; 0] = Raise e ->
     e = IndexError \/ e = TypeError ->
     candidate_thoughts candidate = Ret VNone) /\
  (forall v, getpath candidate [37; 0; 0] = Ret v ->
     candidate_thoughts candidate = Ret v) /\
  (forall e, candidate_thoughts candidate = Raise e -> e = KeyError).
Proof.
  unfold candidate_thoughts, try_except. split; [|split].
  - intros e -> [-> | ->]; reflexivity.
  - intros v ->. reflexivity.
  - intros e. destruct (getpath candidate [37; 0; 0]) as [v|e0] eqn:E; [discriminate|].
    destruct (getpath_raises _ _ _ E) as [->|[->| ->]]; cbn; congruence.
Qed.

(** The image container at item 12 is not optional: a candidate with
    fewer than 13 items raises [IndexError] there, while one whose item
    12 is empty or null simply has no web images and no generated ones. *)
Theorem candidate_images_container (ext : Externals) (l : list pyval) :
  ((List.length l < 13)%nat ->
     candidate_web_images ext (VList l) = Raise IndexError) /\
  (forall v, l !! 12%nat = Some v -> truthy v = false ->
     candidate_web_images ext (VList l) = Ret [] /\
     has_generated_images (VList l) = Ret false).
Proof.
  split.
  - intros Hl. unfold candidate_web_images. cbn [getitem].
    unfold list_getitem, norm_index.
    destruct (Z.ltb_spec 12 (Z.of_nat (List.length l))); [lia|].
    cbn [Z.leb andb bind].
    destruct (Z.leb (- Z.of_nat (List.length l)) 12); reflexivity.
  - intros v Hv Ht.
    assert (Hg : getitem (VList l) 12 = Ret v).
    { cbn [getitem]. change 12 with (Z.of_nat 12). apply list_getitem_small. exact Hv. }
    unfold candidate_web_images, has_generated_images, py_and.
    rewrite Hg. cbn [bind]. rewrite Ht. cbn [bind]. rewrite Ht. auto.
Qed.

Lemma candidate_images_container_witness :
  candidate_web_images Sample.ext (VList [VStr "rc_1"; VList [VStr "Hello"]])
  = Raise IndexError.
Proof.
  refine (proj1 (candidate_images_container Sample.ext
                   [VStr "rc_1"; VList [VStr "Hello"]]) _).
  simpl. lia.
Defined.

(** ** The constructor's cookies *)

(** With a non-empty [secure_1psid] the browser is not consulted and the
    jar holds that cookie, plus [__Secure-1PSIDTS] when a non-empty one is
    given.  Without it [secure_1psidts] is ignored and the jar stays empty
    whatever the browser holds: the constructor fails with [ValueError]
    exactly when the browser could be read and has no non-empty
    [__Secure-1PSID].  A new client is not running and has no gems. *)
Theorem constructor_cookies (secure_1psidts : option string)
    (browser : browser_outcome) :
  (forall psid, str_truthy psid = true ->
     GeminiClient_init_cookies (Some psid) secure_1psidts browser
       = Ret (GeminiClient_new psid secure_1psidts) /\
     assoc_get "__Secure-1PSID" (cookies (GeminiClient_new psid secure_1psidts))
       = Some psid /\
     running (GeminiClient_new psid secure_1psidts) = false /\
     gems (GeminiClient_new psid secure_1psidts) = Raise RuntimeError) /\
  (forall c, GeminiClient_init_cookies None secure_1psidts browser = Ret c ->
     cookies c = [] /\ running c = false) /\
  (GeminiClient_init_cookies None secure_1psidts browser = Raise ValueError <->
   browser = BrowserRaises ValueError \/
   exists found, browser = BrowserCookies found /\
     match assoc_get "__Secure-1PSID" found with
     | Some v => str_truthy v = false
     | None => True
     end).
Proof.
  split; [|split].
  - intros psid Hp. unfold GeminiClient_init_cookies, GeminiClient_new.
    rewrite Hp. unfold str_truthy.
    split; [destruct secure_1psidts as [ts|];
            [destruct (Nat.eqb (String.length ts) 0)|]; reflexivity|].
    repeat split.
  - intros c. unfold GeminiClient_init_cookies.
    destruct browser as [|found|e]; [intros [= <-]; auto| |discriminate].
    destruct found as [|kv found]; [discriminate|].
    destruct (assoc_get "__Secure-1PSID" (kv :: found)) as [v|]; [|discriminate].
    destruct (str_truthy v); [intros [= <-]; auto|discriminate].
  - unfold GeminiClient_init_cookies.
    destruct browser as [|found|e].
    + split; [discriminate|]. intros [H|(f & H & _)]; discriminate.
    + destruct found as [|kv found].
      * split; [intros _|reflexivity]. right. exists []. split; [reflexivity|exact I].
      * destruct (assoc_get "__Secure-1PSID" (kv :: found)) as [v|] eqn:Ea.
        -- destruct (str_truthy v) eqn:Ev.
           ++ split; [discriminate|]. intros [H|(f & [= <-] & H)]; [discriminate|].
              rewrite Ea in H. congruence.
           ++ split; [intros _|reflexivity]. right. exists (kv :: found).
              rewrite Ea. auto.
        -- split; [intros _|reflexivity]. right. exists (kv :: found).
           rewrite Ea. auto.
    + split.
      * intros [= ->]. auto.
      * intros [[= ->]|(f & H & _)]; [reflexivity|discriminate].
Qed.

Lemma constructor_cookies_witness :
  GeminiClient_init_cookies (Some "psid") (Some "ts")
    (BrowserCookies [("NID", "x")])
  = Ret (GeminiClient_new "psid" (Some "ts")).
Proof.
  exact (proj1 (proj1 (constructor_cookies (Some "ts") (BrowserCookies [("NID", "x")]))
                  "psid" eq_refl)).
Defined.

Example constructor_ignores_psidts_alone :
  GeminiClient_init_cookies None (Some "ts") BrowserImportError
  = Ret (mkGeminiClient [] false false None false false true None).
Proof. reflexivity. Qed.

(** ** Gems that are not there *)

Lemma gems_loop_untagged (ext : Externals) (parts : list pyval) :
  Forall (fun part => exists tag, getitem part (-1) = Ret tag /\
                                  is_str tag "system" = false /\
                                  is_str tag "custom" = false) parts ->
  forall acc, gems_loop ext acc parts = Ret acc.
Proof.
  induction 1 as [|part rest (tag & Hg & Hs & Hc) _ IH]; intros acc; [reflexivity|].
  simpl. unfold gems_step. rewrite Hg. cbn [bind]. rewrite Hs, Hc. cbn [bind].
  apply IH.
Qed.

(** A 200 answer in which no part is tagged [system] or [custom] holds no
    gems: [fetch_gems] closes the client, raises [APIError] and leaves the
    cache alone. *)
Theorem fetch_gems_without_gems (ext : Externals) (c : GeminiClient) (w : World)
    (response : Response) (parts : list pyval) :
  post w (posts_done w) (fetch_gems_request ext c) = Ret response ->
  status_code response = 200 ->
  third_line ext (text response) = Ret (VList parts) ->
  Forall (fun part => exists tag, getitem part (-1) = Ret tag /\
                                  is_str tag "system" = false /\
                                  is_str tag "custom" = false) parts ->
  fst (fetch_gems ext c w) = (Raise APIError, close c) /\
  running (close c) = false /\ _gems (close c) = _gems c.
Proof.
  intros Hp Hs Ht Hparts. unfold fetch_gems, do_post. rewrite Hp, Hs.
  cbn [Z.eqb Pos.eqb negb].
  unfold locate_gems. rewrite Ht. cbn [bind iterate].
  rewrite (gems_loop_untagged ext parts Hparts). cbn. auto.
Qed.

Lemma fetch_gems_without_gems_witness :
  fst (fetch_gems (Sample.ext_of [("OUTER", VList [VList [VStr "other"]])])
         Sample.running_client
         (Sample.world Sample.good_handshake
            (Ret (mkResponse 200 Sample.answer_text))))
  = (Raise APIError, close Sample.running_client).
Proof.
  refine (proj1 (fetch_gems_without_gems
                   (Sample.ext_of [("OUTER", VList [VList [VStr "other"]])])
                   Sample.running_client
                   (Sample.world Sample.good_handshake
                      (Ret (mkResponse 200 Sample.answer_text)))
                   (mkResponse 200 Sample.answer_text)
                   [VList [VStr "other"]] eq_refl eq_refl eq_refl _)).
  repeat constructor. exists (VStr "other"). repeat split.
Defined.
